(** * Shallow embedding of the BAZI engine (backend/bazi_engine) *)

From Stdlib Require Import ZArith List Bool Ascii String Lia QArith Lqa.
Import ListNotations.
Open Scope Z_scope.

(* ================================================================== *)
(** ** stems_branches.py *)

Inductive HeavenlyStem :=
| JIA | YI | BING | DING | WU | JI | GENG | XIN | REN | GUI.

Inductive EarthlyBranch :=
| ZI | CHOU | YIN | MAO | CHEN | SI | WU_BRANCH | WEI | SHEN | YOU | XU | HAI.

(** Elements are the five strings "Wood" .. "Water" in the source;
    [Element] of elements.py. *)
Inductive Element := WOOD | FIRE | EARTH | METAL | WATER.

Inductive YinYang := Yang | Yin.

Definition Element_eqb (a b : Element) : bool :=
  match a, b with
  | WOOD, WOOD | FIRE, FIRE | EARTH, EARTH | METAL, METAL | WATER, WATER => true
  | _, _ => false
  end.

Definition all_elements : list Element := [WOOD; FIRE; EARTH; METAL; WATER].

(** [stem.value["element"]] and [stem.value["yin_yang"]]. *)
Definition stem_element (s : HeavenlyStem) : Element :=
  match s with
  | JIA | YI => WOOD | BING | DING => FIRE | WU | JI => EARTH
  | GENG | XIN => METAL | REN | GUI => WATER
  end.

Definition stem_yin_yang (s : HeavenlyStem) : YinYang :=
  match s with
  | JIA | BING | WU | GENG | REN => Yang
  | _ => Yin
  end.

Definition branch_element (b : EarthlyBranch) : Element :=
  match b with
  | ZI | HAI => WATER | CHOU | CHEN | WEI | XU => EARTH
  | YIN | MAO => WOOD | SI | WU_BRANCH => FIRE | SHEN | YOU => METAL
  end.

Definition STEM_INDEX (s : HeavenlyStem) : Z :=
  match s with
  | JIA => 0 | YI => 1 | BING => 2 | DING => 3 | WU => 4
  | JI => 5 | GENG => 6 | XIN => 7 | REN => 8 | GUI => 9
  end.

Definition BRANCH_INDEX (b : EarthlyBranch) : Z :=
  match b with
  | ZI => 0 | CHOU => 1 | YIN => 2 | MAO => 3 | CHEN => 4 | SI => 5
  | WU_BRANCH => 6 | WEI => 7 | SHEN => 8 | YOU => 9 | XU => 10 | HAI => 11
  end.

(** [INDEX_TO_STEM.get(i)]: a dict lookup, [None] outside 0..9. *)
Definition INDEX_TO_STEM (i : Z) : option HeavenlyStem :=
  match i with
  | 0 => Some JIA | 1 => Some YI | 2 => Some BING | 3 => Some DING
  | 4 => Some WU | 5 => Some JI | 6 => Some GENG | 7 => Some XIN
  | 8 => Some REN | 9 => Some GUI | _ => None
  end.

Definition INDEX_TO_BRANCH (i : Z) : option EarthlyBranch :=
  match i with
  | 0 => Some ZI | 1 => Some CHOU | 2 => Some YIN | 3 => Some MAO
  | 4 => Some CHEN | 5 => Some SI | 6 => Some WU_BRANCH | 7 => Some WEI
  | 8 => Some SHEN | 9 => Some YOU | 10 => Some XU | 11 => Some HAI
  | _ => None
  end.

(** Python's [%] with a positive right operand is floor modulo, as [Z.modulo]. *)
Definition get_stem_by_index (index : Z) : option HeavenlyStem :=
  INDEX_TO_STEM (index mod 10).

Definition get_branch_by_index (index : Z) : option EarthlyBranch :=
  INDEX_TO_BRANCH (index mod 12).

(* ================================================================== *)
(** ** elements.py *)

Definition GENERATION_CYCLE (e : Element) : Element :=
  match e with
  | WOOD => FIRE | FIRE => EARTH | EARTH => METAL | METAL => WATER | WATER => WOOD
  end.

Definition DESTRUCTION_CYCLE (e : Element) : Element :=
  match e with
  | WOOD => EARTH | EARTH => WATER | WATER => FIRE | FIRE => METAL | METAL => WOOD
  end.

Inductive Relationship := R_generates | R_destroys | R_same | R_none.

Definition Relationship_eqb (a b : Relationship) : bool :=
  match a, b with
  | R_generates, R_generates | R_destroys, R_destroys
  | R_same, R_same | R_none, R_none => true
  | _, _ => false
  end.

Definition get_element_relationships (elem1 elem2 : Element) : Relationship :=
  if Element_eqb elem1 elem2 then R_same
  else if Element_eqb (GENERATION_CYCLE elem1) elem2 then R_generates
  else if Element_eqb (DESTRUCTION_CYCLE elem1) elem2 then R_destroys
  else R_none.

(* ================================================================== *)
(** ** ten_gods.py *)

Inductive TenGod :=
| friend | rob_wealth | eating_god | hurting_officer | indirect_wealth
| direct_wealth | seven_killings | direct_officer | indirect_resource
| direct_resource.

Definition all_ten_gods : list TenGod :=
  [friend; rob_wealth; eating_god; hurting_officer; indirect_wealth;
   direct_wealth; seven_killings; direct_officer; indirect_resource;
   direct_resource].

Definition YinYang_eqb (a b : YinYang) : bool :=
  match a, b with Yang, Yang | Yin, Yin => true | _, _ => false end.

Definition get_ten_god (dm_element : Element) (dm_yin_yang : YinYang)
    (target_element : Element) (target_yin_yang : YinYang) : TenGod :=
  let same_polarity := YinYang_eqb dm_yin_yang target_yin_yang in
  let rel_dm_to_target := get_element_relationships dm_element target_element in
  let rel_target_to_dm := get_element_relationships target_element dm_element in
  if Relationship_eqb rel_dm_to_target R_same then
    (if same_polarity then friend else rob_wealth)
  else if Relationship_eqb rel_dm_to_target R_generates then
    (if same_polarity then eating_god else hurting_officer)
  else if Relationship_eqb rel_dm_to_target R_destroys then
    (if same_polarity then indirect_wealth else direct_wealth)
  else if Relationship_eqb rel_target_to_dm R_destroys then
    (if same_polarity then seven_killings else direct_officer)
  else if Relationship_eqb rel_target_to_dm R_generates then
    (if same_polarity then indirect_resource else direct_resource)
  else friend.

(** The five guards of [get_ten_god], in their priority order. *)
Definition ten_god_guards (dm t : Element) : list bool :=
  [ Relationship_eqb (get_element_relationships dm t) R_same;
    Relationship_eqb (get_element_relationships dm t) R_generates;
    Relationship_eqb (get_element_relationships dm t) R_destroys;
    Relationship_eqb (get_element_relationships t dm) R_destroys;
    Relationship_eqb (get_element_relationships t dm) R_generates ].

Definition count_true (l : list bool) : nat := List.length (List.filter (fun b => b) l).

(** The category a guard position yields, by polarity. *)
Definition ten_god_of_guard (i : nat) (same_polarity : bool) : TenGod :=
  match i with
  | 0%nat => if same_polarity then friend else rob_wealth
  | 1%nat => if same_polarity then eating_god else hurting_officer
  | 2%nat => if same_polarity then indirect_wealth else direct_wealth
  | 3%nat => if same_polarity then seven_killings else direct_officer
  | _ => if same_polarity then indirect_resource else direct_resource
  end.

Fixpoint first_true (l : list bool) : option nat :=
  match l with
  | [] => None
  | true :: _ => Some 0%nat
  | false :: l' => option_map S (first_true l')
  end.

(* ================================================================== *)
(** ** calculator.py: year pillar *)

Definition GREGORIAN_EPOCH : Z := 1900.

Definition get_year_stem_branch (year : Z)
    : option HeavenlyStem * option EarthlyBranch :=
  let year_position := (year - GREGORIAN_EPOCH) mod 60 in
  let stem_index := year_position mod 10 in
  let branch_index := year_position mod 12 in
  (get_stem_by_index stem_index, get_branch_by_index branch_index).

(** Proper positive divisors of 60. *)
Definition proper_divisors_60 : list Z :=
  List.filter (fun d => 60 mod d =? 0) (List.map Z.of_nat (List.seq 1 59)).

(* ================================================================== *)
(** ** calculator.py: luck direction and luck pillars of [calculate_age_periods] *)

(** [str.lower()] on the ASCII range (the only characters that can lower
    to the letters of "male"). *)
Definition lower_ascii (c : Ascii.ascii) : Ascii.ascii :=
  let n := Ascii.nat_of_ascii c in
  if (65 <=? n)%nat && (n <=? 90)%nat then Ascii.ascii_of_nat (n + 32) else c.

Fixpoint str_lower (s : string) : string :=
  match s with
  | EmptyString => EmptyString
  | String c s' => String (lower_ascii c) (str_lower s')
  end.

Definition _get_luck_direction (gender : string) (year_stem : HeavenlyStem) : Z :=
  let is_yang := YinYang_eqb (stem_yin_yang year_stem) Yang in
  let is_male := String.eqb (str_lower gender) "male" in
  if (is_male && is_yang) || (negb is_male && negb is_yang) then 1 else -1.

(** The luck pillar of period [i] of [calculate_age_periods]. *)
Definition luck_pillar (direction : Z) (year_stem : HeavenlyStem)
    (year_branch : EarthlyBranch) (i : nat)
    : option HeavenlyStem * option EarthlyBranch :=
  let offset := (Z.of_nat i + 1) * direction in
  let luck_stem_index := (STEM_INDEX year_stem + offset) mod 10 in
  let luck_branch_index := (BRANCH_INDEX year_branch + offset) mod 12 in
  (get_stem_by_index luck_stem_index, get_branch_by_index luck_branch_index).

Definition num_periods : nat := 8.

Definition age_period_luck_pillars (gender : string) (year_stem : HeavenlyStem)
    (year_branch : EarthlyBranch) : list (option HeavenlyStem * option EarthlyBranch) :=
  let direction := _get_luck_direction gender year_stem in
  List.map (luck_pillar direction year_stem year_branch) (List.seq 0 num_periods).

(* ================================================================== *)
(** ** calculator.py: day pillar by the explicit day-count loop *)

Definition is_leap_year (year : Z) : bool :=
  ((year mod 4 =? 0) && negb (year mod 100 =? 0)) || (year mod 400 =? 0).

(** Python list indexing [l[i]]: negative indices count from the end,
    anything else out of range raises ([None]). *)
Definition py_index {A} (l : list A) (i : Z) : option A :=
  if 0 <=? i then nth_error l (Z.to_nat i)
  else if - Z.of_nat (List.length l) <=? i
       then nth_error l (Z.to_nat (Z.of_nat (List.length l) + i))
       else None.

Definition days_in_month_list : list Z := [31; 28; 31; 30; 31; 30; 31; 31; 30; 31; 30; 31].

Definition get_days_in_month (year month : Z) : option Z :=
  if (month =? 2) && is_leap_year year then Some 29
  else py_index days_in_month_list (month - 1).

(** [for y in range(y0, y0 + n): total_days += 366 if is_leap_year(y) else 365] *)
Fixpoint year_days_loop (y : Z) (n : nat) : Z :=
  match n with
  | O => 0
  | S n' => (if is_leap_year y then 366 else 365) + year_days_loop (y + 1) n'
  end.

(** [for m in range(m0, m0 + n): total_days += get_days_in_month(year, m)];
    an [IndexError] from the month table is [None]. *)
Fixpoint month_days_loop (year m : Z) (n : nat) : option Z :=
  match n with
  | O => Some 0
  | S n' =>
      match get_days_in_month year m with
      | None => None
      | Some k =>
          match month_days_loop year (m + 1) n' with
          | None => None
          | Some rest => Some (k + rest)
          end
      end
  end.

Definition get_day_stem_branch (year month day : Z)
    : option (option HeavenlyStem * option EarthlyBranch) :=
  match month_days_loop year 1 (Z.to_nat (month - 1)) with
  | None => None
  | Some month_days =>
      let total_days := year_days_loop GREGORIAN_EPOCH (Z.to_nat (year - GREGORIAN_EPOCH))
                        + month_days + day in
      let day_position := (total_days - 1) mod 60 in
      let stem_index := day_position mod 10 in
      let branch_index := day_position mod 12 in
      Some (get_stem_by_index stem_index, get_branch_by_index branch_index)
  end.

(* ================================================================== *)
(** ** Python's [datetime.date] (proleptic Gregorian ordinals) *)

Record pydate := mkdate { d_year : Z; d_month : Z; d_day : Z }.

(** [_days_in_month] and [_check_date_fields] of the [datetime] module. *)
Definition py_days_in_month (year month : Z) : Z :=
  if (month =? 2) && is_leap_year year then 29
  else nth (Z.to_nat (month - 1)) days_in_month_list 0.

Definition valid_date (d : pydate) : bool :=
  (1 <=? d_year d) && (d_year d <=? 9999) && (1 <=? d_month d) && (d_month d <=? 12)
  && (1 <=? d_day d) && (d_day d <=? py_days_in_month (d_year d) (d_month d)).

Definition _days_before_year (year : Z) : Z :=
  let y := year - 1 in y * 365 + y / 4 - y / 100 + y / 400.

Definition _DAYS_BEFORE_MONTH : list Z :=
  [-1; 0; 31; 59; 90; 120; 151; 181; 212; 243; 273; 304; 334].

Definition _days_before_month (year month : Z) : Z :=
  nth (Z.to_nat month) _DAYS_BEFORE_MONTH 0
  + (if (month >? 2) && is_leap_year year then 1 else 0).

Definition toordinal (d : pydate) : Z :=
  _days_before_year (d_year d) + _days_before_month (d_year d) (d_month d) + d_day d.

(** [(a - b).days] *)
Definition date_sub_days (a b : pydate) : Z := toordinal a - toordinal b.

(* ================================================================== *)
(** ** daily_forecast.py: O(1) day pillar *)

Definition _REFERENCE_DATE : pydate := mkdate 1900 1 1.

Definition get_daily_pillar (target_date : pydate)
    : option HeavenlyStem * option EarthlyBranch :=
  let delta := date_sub_days target_date _REFERENCE_DATE in
  let pos := delta mod 60 in
  (get_stem_by_index (pos mod 10), get_branch_by_index (pos mod 12)).

(* ================================================================== *)
(** ** use_god.py *)

Definition RESOURCE_FOR (e : Element) : Element :=
  match e with WOOD => WATER | FIRE => WOOD | EARTH => FIRE | METAL => EARTH | WATER => METAL end.

Definition OUTPUT_OF (e : Element) : Element :=
  match e with WOOD => FIRE | FIRE => EARTH | EARTH => METAL | METAL => WATER | WATER => WOOD end.

Definition CONTROLLER_OF (e : Element) : Element :=
  match e with WOOD => METAL | FIRE => WATER | EARTH => WOOD | METAL => FIRE | WATER => EARTH end.

Definition CONTROLLED_BY (e : Element) : Element :=
  match e with WOOD => EARTH | FIRE => METAL | EARTH => WATER | METAL => WOOD | WATER => FIRE end.

(** The element fields of the four pillars ([pos.get("element", "")]);
    [None] is a missing or empty element, which the loop skips. *)
Record PillarElems := { stem_elem : option Element; branch_elem : option Element }.

Record FourPillarElems :=
  { fp_year : PillarElems; fp_month : PillarElems; fp_day : PillarElems; fp_hour : PillarElems }.

(** The positions walked by [_calculate_dm_strength_score], in order:
    every stem and branch except the day stem. *)
Definition strength_positions (fp : FourPillarElems) : list (option Element) :=
  [stem_elem (fp_year fp); branch_elem (fp_year fp);
   stem_elem (fp_month fp); branch_elem (fp_month fp);
   branch_elem (fp_day fp);
   stem_elem (fp_hour fp); branch_elem (fp_hour fp)].

(** Scores are Python floats; every increment is a multiple of 0.5 and
    the sums stay small, so the float sums are exact and equal these
    rationals. *)
Definition strength_step (day_master_element : Element) (score : Q) (pos : option Element) : Q :=
  match pos with
  | None => score
  | Some elem =>
      if Element_eqb elem day_master_element then score + 1
      else if Element_eqb elem (RESOURCE_FOR day_master_element) then score + (1 # 2)
      else if Element_eqb elem (CONTROLLER_OF day_master_element) then score - 1
      else if Element_eqb elem (OUTPUT_OF day_master_element) then score - (1 # 2)
      else score
  end%Q.

(** [element_counts] is a parameter of the source function that its body
    never reads. *)
Definition _calculate_dm_strength_score (day_master_element : Element)
    (element_counts : Element -> Z) (seasonal_strength : string)
    (four_pillars : FourPillarElems) : Q :=
  let score := (if String.eqb seasonal_strength "strong" then 2
                else if String.eqb seasonal_strength "weak" then -2 else 0)%Q in
  fold_left (strength_step day_master_element) (strength_positions four_pillars) score.

Inductive DmStrength := dm_strong | dm_weak | dm_balanced.

Record UseGodResult := {
  dm_strength : DmStrength;
  dm_strength_score : Q;
  use_god : Element;
  use_god_secondary : Element;
  avoid_god : Element;
  avoid_god_secondary : Element }.

(** [determine_use_god] without its localized advice and explanation
    strings (static per-element data). [round(score, 1)] is the identity on
    multiples of 0.5. *)
Definition determine_use_god (day_master_element : Element)
    (element_counts : Element -> Z) (seasonal_strength_str : string)
    (four_pillars : FourPillarElems) : UseGodResult :=
  let score := _calculate_dm_strength_score day_master_element element_counts
                 seasonal_strength_str four_pillars in
  let resource := RESOURCE_FOR day_master_element in
  let output := OUTPUT_OF day_master_element in
  let controller := CONTROLLER_OF day_master_element in
  if Qle_bool (3 # 2) score then
    {| dm_strength := dm_strong; dm_strength_score := score;
       use_god := output; use_god_secondary := controller;
       avoid_god := day_master_element; avoid_god_secondary := resource |}
  else if Qle_bool score (-3 # 2) then
    {| dm_strength := dm_weak; dm_strength_score := score;
       use_god := resource; use_god_secondary := day_master_element;
       avoid_god := controller; avoid_god_secondary := output |}
  else
    {| dm_strength := dm_balanced; dm_strength_score := score;
       use_god := resource; use_god_secondary := day_master_element;
       avoid_god := controller; avoid_god_secondary := output |}.

(** The strength score in the words of the spec: seasonal term plus, per
    non-Day-stem position, +1 same, +0.5 Resource, -1 Controller,
    -0.5 Output. *)
Definition spec_position_term (dm : Element) (pos : option Element) : Q :=
  match pos with
  | None => 0
  | Some e =>
      (if Element_eqb e dm then 1 else 0)
      + (if Element_eqb e (RESOURCE_FOR dm) then 1 # 2 else 0)
      + (if Element_eqb e (CONTROLLER_OF dm) then -1 else 0)
      + (if Element_eqb e (OUTPUT_OF dm) then - (1 # 2) else 0)
  end%Q.

Definition spec_strength_score (dm : Element) (seasonal_strength : string)
    (fp : FourPillarElems) : Q :=
  ((if String.eqb seasonal_strength "strong" then 2
    else if String.eqb seasonal_strength "weak" then -2 else 0)
   + fold_right Qplus 0 (map (spec_position_term dm) (strength_positions fp)))%Q.

(* ================================================================== *)
(** ** annual_luck.py: six clashes and six combinations on branch indices *)

Definition SIX_CLASHES : list (Z * Z) :=
  [(0, 6); (1, 7); (2, 8); (3, 9); (4, 10); (5, 11)].

Definition SIX_COMBINATIONS : list (Z * Z) :=
  [(0, 1); (2, 11); (3, 10); (4, 9); (5, 8); (6, 7)].

Definition _normalize_clash_pair (a b : Z) : Z * Z := (Z.min a b, Z.max a b).

Definition pair_eqb (p q : Z * Z) : bool := (fst p =? fst q) && (snd p =? snd q).

Definition pair_in (p : Z * Z) (l : list (Z * Z)) : bool := existsb (pair_eqb p) l.

Definition _is_clash (idx1 idx2 : Z) : bool :=
  pair_in (_normalize_clash_pair idx1 idx2) SIX_CLASHES.

Definition _is_combination (idx1 idx2 : Z) : bool :=
  pair_in (_normalize_clash_pair idx1 idx2) SIX_COMBINATIONS.

(* ================================================================== *)
(** ** daily_forecast.py: overall score *)

(** The Use-God/Avoid-God fields reach [calculate_overall_score] as strings
    that may be "" (a [.get(..., "")] default); [None] stands for "". *)
Definition opt_elem_eqb (e : Element) (o : option Element) : bool :=
  match o with Some x => Element_eqb e x | None => false end.

(** All adjustments are integers, so the float [score] is integral and
    [int(round(score))] is the identity on it. *)
Definition calculate_overall_score (dm_element : Element)
    (use_god use_god_2 avoid_god avoid_god_2 : option Element)
    (daily_elem : Element) (daily_branch_idx : Z) (natal_branch_indices : list Z) : Z :=
  let score := 50 in
  let score :=
    if opt_elem_eqb daily_elem use_god then score + 25
    else if opt_elem_eqb daily_elem use_god_2 then score + 15
    else if opt_elem_eqb daily_elem avoid_god then score - 20
    else if opt_elem_eqb daily_elem avoid_god_2 then score - 12
    else score in
  let rel := get_element_relationships daily_elem dm_element in
  let score :=
    match rel with
    | R_generates => score + 10
    | R_same => score + 5
    | R_destroys => score - 10
    | R_none => score
    end in
  let reverse := get_element_relationships dm_element daily_elem in
  let score :=
    match reverse with
    | R_generates => score - 3
    | R_destroys => score - 5
    | _ => score
    end in
  let score :=
    fold_left (fun score nb_idx =>
                 let score := if _is_clash daily_branch_idx nb_idx then score - 8 else score in
                 if _is_combination daily_branch_idx nb_idx then score + 8 else score)
              natal_branch_indices score in
  Z.max 0 (Z.min 100 score).

(** The overall score in the words of the spec. *)
Definition spec_overall_score (dm_element : Element)
    (use_god use_god_2 avoid_god avoid_god_2 : option Element)
    (daily_elem : Element) (daily_branch_idx : Z) (natal_branch_indices : list Z) : Z :=
  let gods :=
    if opt_elem_eqb daily_elem use_god then 25
    else if opt_elem_eqb daily_elem use_god_2 then 15
    else if opt_elem_eqb daily_elem avoid_god then -20
    else if opt_elem_eqb daily_elem avoid_god_2 then -12
    else 0 in
  let dm_terms :=
    (if Element_eqb (GENERATION_CYCLE daily_elem) dm_element then 10 else 0)
    + (if Element_eqb daily_elem dm_element then 5 else 0)
    + (if Element_eqb (DESTRUCTION_CYCLE daily_elem) dm_element then -10 else 0)
    + (if Element_eqb (GENERATION_CYCLE dm_element) daily_elem then -3 else 0)
    + (if Element_eqb (DESTRUCTION_CYCLE dm_element) daily_elem then -5 else 0) in
  let branch_terms :=
    fold_right Z.add 0
      (map (fun nb => (if _is_clash daily_branch_idx nb then -8 else 0)
                      + (if _is_combination daily_branch_idx nb then 8 else 0))
           natal_branch_indices) in
  Z.max 0 (Z.min 100 (50 + gods + dm_terms + branch_terms)).

(* ================================================================== *)
(** ** compatibility.py *)

(** [frozenset({a, b}) == frozenset({x, y})] *)
Definition fset_pair_eqb (a b : Z) (p : Z * Z) : bool :=
  ((a =? fst p) && (b =? snd p)) || ((a =? snd p) && (b =? fst p)).

Definition SIX_HARMONIES : list (Z * Z) := [(0, 1); (2, 11); (3, 10); (4, 9); (5, 8); (6, 7)].
Definition THREE_HARMONIES_GROUPS : list (list Z) := [[8; 0; 4]; [11; 3; 7]; [2; 6; 10]; [5; 9; 1]].
Definition C_SIX_CLASHES : list (Z * Z) := [(0, 6); (1, 7); (2, 8); (3, 9); (4, 10); (5, 11)].
Definition SIX_HARMS : list (Z * Z) := [(0, 7); (1, 6); (2, 5); (3, 4); (8, 11); (9, 10)].

Definition zmem (x : Z) (l : list Z) : bool := existsb (Z.eqb x) l.

Definition _is_harmony (a b : Z) : bool := existsb (fset_pair_eqb a b) SIX_HARMONIES.
Definition _is_three_harmony (a b : Z) : bool :=
  existsb (fun g => zmem a g && zmem b g) THREE_HARMONIES_GROUPS.
Definition c_is_clash (a b : Z) : bool := existsb (fset_pair_eqb a b) C_SIX_CLASHES.
Definition _is_harm (a b : Z) : bool := existsb (fset_pair_eqb a b) SIX_HARMS.

Inductive BranchRel := six_harmony | three_harmony | same_branch | neutral_branch | six_harm | six_clash.

Definition _score_branch_pair (idx_a idx_b : Z) : Q * BranchRel :=
  if (idx_a <? 0) || (idx_b <? 0) then (12%Q, neutral_branch)
  else if idx_a =? idx_b then (18%Q, same_branch)
  else if _is_harmony idx_a idx_b then (25%Q, six_harmony)
  else if _is_three_harmony idx_a idx_b then (20%Q, three_harmony)
  else if _is_harm idx_a idx_b then (5%Q, six_harm)
  else if c_is_clash idx_a idx_b then (0%Q, six_clash)
  else (12%Q, neutral_branch).

Inductive DmRel := dm_same | dm_generates | dm_controls | dm_controlled | dm_neutral.

(** Day Master elements are strings; [None] is a missing one (""), for
    which [get_element_relationships] answers "none". *)
Definition opt_eqb (a b : option Element) : bool :=
  match a, b with
  | Some x, Some y => Element_eqb x y
  | None, None => true
  | _, _ => false
  end.

Definition rel_opt (a b : option Element) : Relationship :=
  match a, b with
  | Some x, Some y => get_element_relationships x y
  | _, _ => R_none
  end.

Definition _score_dm_interaction (elem_a elem_b : option Element) : Q * DmRel :=
  if opt_eqb elem_a elem_b then (22%Q, dm_same)
  else
    let rel_ab := rel_opt elem_a elem_b in
    let rel_ba := rel_opt elem_b elem_a in
    if Relationship_eqb rel_ab R_generates || Relationship_eqb rel_ba R_generates
    then (28%Q, dm_generates)
    else if Relationship_eqb rel_ab R_destroys then (10%Q, dm_controls)
    else if Relationship_eqb rel_ba R_destroys then (10%Q, dm_controlled)
    else (15%Q, dm_neutral).

(** Python's [max(a, b)] / [min(a, b)]: the first argument unless the
    second is strictly larger / smaller. *)
Definition py_max (a b : Q) : Q := if Qle_bool b a then a else b.
Definition py_min (a b : Q) : Q := if Qle_bool a b then a else b.

Definition elem_list : list Element := [WOOD; FIRE; EARTH; METAL; WATER].

(** The parts of a chart dict that [analyze_compatibility] reads. *)
Record CompatChart := {
  cc_dm_element : option Element;
  cc_year_idx : Z;             (** [_branch_idx] of the year pillar, -1 if absent *)
  cc_day_idx : Z;
  cc_counts : Element -> Z;    (** [elements.counts], 0 when absent *)
  cc_use_god : option Element  (** [use_god.use_god], [None] when "" or absent *)
}.

(** [round(x, 1)] on floats is left as a parameter [py_round1]: the
    results below hold for any rounding function. The arithmetic is exact
    rational arithmetic. *)
Definition _score_element_complement (py_round1 : Q -> Q)
    (counts_a counts_b : Element -> Z) : Q :=
  let combined := map (fun e => counts_a e + counts_b e) elem_list in
  let total := fold_right Z.add 0 combined in
  if total =? 0 then 5%Q
  else
    let avg := (inject_Z total / 5)%Q in
    let variance :=
      (fold_right Qplus 0 (map (fun v => (inject_Z v - avg) * (inject_Z v - avg)) combined) / 5)%Q in
    py_round1 (py_max 0 (10 - variance * (6 # 10)))%Q.

Definition _score_use_god_synergy (chart_a chart_b : CompatChart) : Q :=
  let counts_a := cc_counts chart_a in
  let counts_b := cc_counts chart_b in
  let score := 0%Q in
  let score :=
    match cc_use_god chart_a with
    | Some ug_a =>
        if 2 <=? counts_b ug_a then (score + 5)%Q
        else if 1 <=? counts_b ug_a then (score + (5 # 2))%Q else score
    | None => score
    end in
  let score :=
    match cc_use_god chart_b with
    | Some ug_b =>
        if 2 <=? counts_a ug_b then (score + 5)%Q
        else if 1 <=? counts_a ug_b then (score + (5 # 2))%Q else score
    | None => score
    end in
  py_min score 10%Q.

Inductive Tier := excellent | good | average | challenging | difficult.

Definition _get_tier (score : Q) : Tier :=
  if Qle_bool (82 # 1) score then excellent
  else if Qle_bool (66 # 1) score then good
  else if Qle_bool (50 # 1) score then average
  else if Qle_bool (35 # 1) score then challenging
  else difficult.

(** The numeric results and relationship keys of [analyze_compatibility]
    (the localized labels are lookups of these keys). *)
Record CompatResult := {
  total_score : Q; tier : Tier;
  dm_score : Q; dm_rel : DmRel;
  year_score : Q; year_rel : BranchRel;
  day_score : Q; day_rel : BranchRel;
  elem_score : Q; ug_score : Q }.

Definition analyze_compatibility (py_round1 : Q -> Q) (chart_a chart_b : CompatChart)
    : CompatResult :=
  let '(dm_s, dm_r) := _score_dm_interaction (cc_dm_element chart_a) (cc_dm_element chart_b) in
  let '(year_s, year_r) := _score_branch_pair (cc_year_idx chart_a) (cc_year_idx chart_b) in
  let '(day_s, day_r) := _score_branch_pair (cc_day_idx chart_a) (cc_day_idx chart_b) in
  let elem_s := _score_element_complement py_round1 (cc_counts chart_a) (cc_counts chart_b) in
  let ug_s := _score_use_god_synergy chart_a chart_b in
  let total := py_round1 (dm_s + year_s + day_s + elem_s + ug_s)%Q in
  {| total_score := total; tier := _get_tier total;
     dm_score := dm_s; dm_rel := dm_r; year_score := year_s; year_rel := year_r;
     day_score := day_s; day_rel := day_r; elem_score := elem_s; ug_score := ug_s |}.

(** The directional label seen from the other chart. *)
Definition flip_dm_rel (r : DmRel) : DmRel :=
  match r with dm_controls => dm_controlled | dm_controlled => dm_controls | x => x end.

(* ================================================================== *)
(** ** calculator.py: month and hour pillars *)

Definition get_month_stem_branch (year month : Z)
    : option (option HeavenlyStem * option EarthlyBranch) :=
  match fst (get_year_stem_branch year) with
  | None => None   (* [year_stem.value] on [None] raises *)
  | Some year_stem =>
      let year_stem_pos := STEM_INDEX year_stem in
      let month_stem_base := year_stem_pos * 2 in
      let month_stem_index := (month_stem_base + (month - 1) mod 12) mod 10 in
      let month_branch_index := (month + 10) mod 12 in
      Some (get_stem_by_index month_stem_index, get_branch_by_index month_branch_index)
  end.

Definition hour_branch_index (hour : Z) : Z :=
  let hour_for_branch := hour mod 24 in
  if (23 <=? hour_for_branch) || (hour_for_branch <? 1) then 0
  else let i := (hour_for_branch + 1) / 2 in if 11 <? i then 11 else i.

Definition get_hour_stem_branch (day_stem : HeavenlyStem) (hour : Z)
    : option HeavenlyStem * option EarthlyBranch :=
  let hbi := hour_branch_index hour in
  let day_stem_pos := STEM_INDEX day_stem in
  let hour_stem_base := (day_stem_pos / 2) * 2 in
  let hour_stem_index := (hour_stem_base + hbi / 2) mod 10 in
  (get_stem_by_index hour_stem_index, get_branch_by_index hbi).

(* ================================================================== *)
(** ** [datetime.strptime(s, "%Y-%m-%d")] *)

(** [_strptime] compiles the format "%Y-%m-%d" to the regular expression
    [(?P<Y>\d\d\d\d)-(?P<m>1[0-2]|0[1-9]|[1-9])-(?P<d>3[0-1]|[1-2]\d|0[1-9]|[1-9]| [1-9])]
    and applies [format_regex.match(data_string)]: matching starts at the
    first character and tries the alternatives of each group in order,
    backtracking into the next one when the rest of the pattern fails. Text
    left after the match raises "unconverted data remains", and
    [datetime_date(year, month, day)] raises on an invalid date. The strings
    here are ASCII, so [\d] is [0-9]. *)

Definition digit (c : Ascii.ascii) : option Z :=
  let n := Ascii.nat_of_ascii c in
  if (48 <=? n)%nat && (n <=? 57)%nat then Some (Z.of_nat n - 48) else None.

Definition char_class := Ascii.ascii -> bool.

Definition is_digit : char_class := fun c => match digit c with Some _ => true | None => false end.

Definition in_range (lo hi : Ascii.ascii) : char_class :=
  fun c => (Ascii.nat_of_ascii lo <=? Ascii.nat_of_ascii c)%nat
           && (Ascii.nat_of_ascii c <=? Ascii.nat_of_ascii hi)%nat.

Definition is_char (x : Ascii.ascii) : char_class := Ascii.eqb x.

(** One alternative of a group, one character class per character: on a
    match, the matched text and the rest of the input. *)
Fixpoint match_seq (p : list char_class) (s : string) : option (string * string) :=
  match p with
  | [] => Some (EmptyString, s)
  | c :: p' =>
      match s with
      | EmptyString => None
      | String x s' =>
          if c x then
            match match_seq p' s' with
            | Some (m, r) => Some (String x m, r)
            | None => None
            end
          else None
      end
  end.

(** A group [(a1|a2|...)] followed by the rest [k] of the pattern: the
    first alternative after which [k] matches wins. *)
Fixpoint match_alts {A} (alts : list (list char_class)) (s : string)
    (k : string -> string -> option A) : option A :=
  match alts with
  | [] => None
  | a :: alts' =>
      match match_seq a s with
      | Some (m, r) =>
          match k m r with
          | Some x => Some x
          | None => match_alts alts' s k
          end
      | None => match_alts alts' s k
      end
  end.

Definition match_lit (x : Ascii.ascii) (s : string) : option string :=
  match s with
  | String c s' => if Ascii.eqb c x then Some s' else None
  | EmptyString => None
  end.

Definition re_Y : list (list char_class) := [[is_digit; is_digit; is_digit; is_digit]].

Definition re_m : list (list char_class) :=
  [[is_char "1"%char; in_range "0"%char "2"%char];
   [is_char "0"%char; in_range "1"%char "9"%char];
   [in_range "1"%char "9"%char]].

Definition re_d : list (list char_class) :=
  [[is_char "3"%char; in_range "0"%char "1"%char];
   [in_range "1"%char "2"%char; is_digit];
   [is_char "0"%char; in_range "1"%char "9"%char];
   [in_range "1"%char "9"%char];
   [is_char " "%char; in_range "1"%char "9"%char]].

(** [format_regex.match(data_string)]: the groups Y, m and d and the text
    after the match. *)
Definition ymd_regex_match (s : string) : option (string * string * string * string) :=
  match_alts re_Y s (fun y r1 =>
    match match_lit "-"%char r1 with
    | None => None
    | Some r2 =>
        match_alts re_m r2 (fun m r3 =>
          match match_lit "-"%char r3 with
          | None => None
          | Some r4 => match_alts re_d r4 (fun d r5 => Some (y, m, d, r5))
          end)
    end).

(** [int()] of a group: its decimal digits ([int] strips the leading space
    of the alternative [ [1-9]]). *)
Fixpoint group_int_acc (s : string) (acc : Z) : Z :=
  match s with
  | EmptyString => acc
  | String c s' =>
      match digit c with
      | Some v => group_int_acc s' (10 * acc + v)
      | None => group_int_acc s' acc
      end
  end.

Definition group_int (s : string) : Z := group_int_acc s 0.

(** [datetime.strptime(s, "%Y-%m-%d")]; [None] is its [ValueError]. *)
Definition strptime_ymd (s : string) : option pydate :=
  match ymd_regex_match s with
  | None => None   (* "time data ... does not match format ..." *)
  | Some (y, m, d, rest) =>
      match rest with
      | EmptyString =>
          let dt := mkdate (group_int y) (group_int m) (group_int d) in
          if valid_date dt then Some dt else None
      | String _ _ => None   (* "unconverted data remains" *)
      end
  end.

(* ================================================================== *)
(** ** calculator.py / annual_luck.py: the chart *)

Record Pillar := { p_stem : HeavenlyStem; p_branch : EarthlyBranch }.

Definition pillar_of (sb : option HeavenlyStem * option EarthlyBranch) : option Pillar :=
  match sb with
  | (Some s, Some b) => Some {| p_stem := s; p_branch := b |}
  | _ => None  (* [stem_to_dict(None)] raises *)
  end.

Definition obind {A B} (o : option A) (f : A -> option B) : option B :=
  match o with Some a => f a | None => None end.
Notation "'let*' x := o 'in' f" := (obind o (fun x => f))
  (at level 200, x name, o at level 100, f at level 200).

Record AgePeriod := {
  ap_start_age : Z; ap_end_age : Z; ap_start_year : Z; ap_end_year : Z;
  ap_luck_pillar : Pillar; ap_relationship : Relationship; ap_luck_score : Z }.

(** The luck score of one period of [calculate_age_periods]. *)
Definition luck_score (luck_element day_master_element : Element) : Z :=
  let relationship := get_element_relationships luck_element day_master_element in
  match relationship with
  | R_same | R_generates => 2
  | _ =>
      let reverse_rel := get_element_relationships day_master_element luck_element in
      match reverse_rel with
      | R_generates => 1
      | _ =>
          match relationship with
          | R_destroys => -2
          | _ => match reverse_rel with R_destroys => -1 | _ => 0 end
          end
      end
  end.

(** [calculate_age_periods] without its localized guidance texts. *)
Definition calculate_age_periods (birth_year : Z) (gender : string)
    (year_stem : HeavenlyStem) (year_branch : EarthlyBranch)
    (day_master_element : Element) : option (list AgePeriod) :=
  let direction := _get_luck_direction gender year_stem in
  fold_right
    (fun i acc =>
       let* rest := acc in
       let* lp := pillar_of (luck_pillar direction year_stem year_branch i) in
       let start_age := 8 + Z.of_nat i * 10 in
       let end_age := start_age + 9 in
       let luck_element := stem_element (p_stem lp) in
       Some ({| ap_start_age := start_age; ap_end_age := end_age;
                ap_start_year := birth_year + start_age; ap_end_year := birth_year + end_age;
                ap_luck_pillar := lp;
                ap_relationship := get_element_relationships luck_element day_master_element;
                ap_luck_score := luck_score luck_element day_master_element |} :: rest))
    (Some []) (List.seq 0 num_periods).

Inductive InteractionType := Clash | Combination.

Record AnnualLuck := {
  al_stem : HeavenlyStem; al_branch : EarthlyBranch; al_year : Z;
  al_interactions : list (InteractionType * string) }.

(** [calculate_annual_luck(four_pillars, year)] without its localized
    descriptions. *)
Definition calculate_annual_luck (pillars : list (string * Pillar)) (year : Z)
    : option AnnualLuck :=
  let* ap := pillar_of (get_year_stem_branch year) in
  let annual_branch_idx := BRANCH_INDEX (p_branch ap) in
  let interactions :=
    flat_map (fun np =>
                let pillar_branch_idx := BRANCH_INDEX (p_branch (snd np)) in
                (if _is_clash annual_branch_idx pillar_branch_idx then [(Clash, fst np)] else [])
                ++ (if _is_combination annual_branch_idx pillar_branch_idx
                    then [(Combination, fst np)] else []))
             pillars in
  Some {| al_stem := p_stem ap; al_branch := p_branch ap; al_year := year;
          al_interactions := interactions |}.

(** The chart returned by [calculate_bazi]. The element tally, hidden
    stems, ten gods, seasonal strength and deities are functions of the four
    pillars alone and are left out. *)
Record BaziChart := {
  in_birth_date : string; in_birth_hour : Z; in_gender : string;
  c_year : Pillar; c_month : Pillar; c_day : Pillar; c_hour : Pillar;
  c_age_periods : list AgePeriod;
  c_annual_luck : AnnualLuck }.

Inductive BaziError := InvalidInput | CalculationError.

Inductive BaziResult := Success (c : BaziChart) | Failure (e : BaziError).

(** [calculate_bazi]; [now_year] is [datetime.now().year], read by
    [calculate_annual_luck] when no year is passed, as here. *)
Definition calculate_bazi (birth_date_str : string) (birth_hour : Z) (gender : string)
    (language : string) (now_year : Z) : BaziResult :=
  match strptime_ymd birth_date_str with
  | None => Failure InvalidInput
  | Some bd =>
      let year := d_year bd in
      let month := d_month bd in
      let day := d_day bd in
      let chart :=
        let* yp := pillar_of (get_year_stem_branch year) in
        let* msb := get_month_stem_branch year month in
        let* mp := pillar_of msb in
        let* dsb := get_day_stem_branch year month day in
        let* dp := pillar_of dsb in
        let* hp := pillar_of (get_hour_stem_branch (p_stem dp) birth_hour) in
        let day_master_element := stem_element (p_stem dp) in
        let* annual_luck :=
          calculate_annual_luck [("year"%string, yp); ("month"%string, mp); ("day"%string, dp); ("hour"%string, hp)]
                                now_year in
        let* age_periods :=
          calculate_age_periods year gender (p_stem yp) (p_branch yp) day_master_element in
        Some {| in_birth_date := birth_date_str; in_birth_hour := birth_hour;
                in_gender := gender;
                c_year := yp; c_month := mp; c_day := dp; c_hour := hp;
                c_age_periods := age_periods; c_annual_luck := annual_luck |} in
      match chart with
      | Some c => Success c
      | None => Failure CalculationError
      end
  end.

(** The same result with its [annual_luck] field blanked out. *)
Definition drop_annual_luck (r : BaziResult) : BaziResult :=
  match r with
  | Success c =>
      Success {| in_birth_date := in_birth_date c; in_birth_hour := in_birth_hour c;
                 in_gender := in_gender c;
                 c_year := c_year c; c_month := c_month c; c_day := c_day c;
                 c_hour := c_hour c; c_age_periods := c_age_periods c;
                 c_annual_luck := {| al_stem := JIA; al_branch := ZI; al_year := 0;
                                     al_interactions := [] |} |}
  | Failure e => Failure e
  end.

(* ================================================================== *)
(** ** main.py: [validate_birth_input] *)

(** The [HTTPException(400)] raised, by its message. *)
Inductive ValidationError :=
| BadDateFormat     (* "Invalid birth date format: '...'. Expected YYYY-MM-DD." *)
| YearOutOfRange    (* "Birth year must be between 1900 and 2100. Got ..." *)
| FutureDate        (* "Birth date cannot be in the future." *)
| BadHour           (* "Birth hour must be between 0 and 23. Got ..." *)
| BadGender         (* "Gender must be 'male' or 'female'. Got '...'." *)
| BadCalendarType.  (* "Calendar type must be 'solar' or 'lunar'. Got '...'." *)

(** [today] is [date.today()]; [birth_hour] [None] is a missing hour. *)
Definition validate_birth_input (birth_date : string) (birth_hour : option Z)
    (gender : string) (calendar_type : string) (today : pydate) : option ValidationError :=
  match strptime_ymd birth_date with
  | None => Some BadDateFormat
  | Some parsed =>
      if (d_year parsed <? 1900) || (2100 <? d_year parsed) then Some YearOutOfRange
      else if String.eqb calendar_type "solar" && (toordinal today <? toordinal parsed)
      then Some FutureDate
      else
        match birth_hour with
        | None => Some BadHour
        | Some h =>
            if negb ((0 <=? h) && (h <=? 23)) then Some BadHour
            else if negb (String.eqb gender "male" || String.eqb gender "female")
            then Some BadGender
            else if negb (String.eqb calendar_type "solar" || String.eqb calendar_type "lunar")
            then Some BadCalendarType
            else None
        end
  end.

(* ================================================================== *)
(** ** stems_branches.py: branch polarity *)

(** [branch.value["yin_yang"]]. *)
Definition branch_yin_yang (b : EarthlyBranch) : YinYang :=
  match b with
  | ZI | YIN | CHEN | WU_BRANCH | SHEN | XU => Yang
  | _ => Yin
  end.

(* ================================================================== *)
(** ** seasonal_strength.py *)

Definition ELEMENT_SEASON_BRANCHES (e : Element) : list Z :=
  match e with
  | WOOD => [2; 3] | FIRE => [5; 6] | METAL => [8; 9] | WATER => [11; 0]
  | EARTH => [1; 4; 7; 10]
  end.

Definition ELEMENT_OPPOSITE_BRANCHES (e : Element) : list Z :=
  match e with
  | WOOD => [8; 9] | FIRE => [11; 0] | METAL => [2; 3] | WATER => [5; 6]
  | EARTH => []
  end.

Inductive SeasonalStrength := ss_strong | ss_neutral | ss_weak.

(** [get_seasonal_strength] without its explanation strings; [None] is an
    empty day-master string or one that is not an element name, answered
    with "neutral". *)
Definition get_seasonal_strength (day_master_element : option Element)
    (month_branch_index : Z) : SeasonalStrength :=
  match day_master_element with
  | None => ss_neutral
  | Some e =>
      if zmem month_branch_index (ELEMENT_SEASON_BRANCHES e) then ss_strong
      else if zmem month_branch_index (ELEMENT_OPPOSITE_BRANCHES e) then ss_weak
      else ss_neutral
  end.

(* ================================================================== *)
(** ** daily_forecast.py and deities.py: Peach Blossom *)

(** [_PEACH_BLOSSOM], in its insertion (iteration) order. *)
Definition _PEACH_BLOSSOM : list (list Z * Z) :=
  [([2; 6; 10], 3); ([5; 9; 1], 6); ([8; 0; 4], 9); ([11; 3; 7], 0)].

Definition _get_peach_blossom_branch (day_branch_idx : Z) : Z :=
  match List.find (fun gp => zmem day_branch_idx (fst gp)) _PEACH_BLOSSOM with
  | Some (_, pb_idx) => pb_idx
  | None => -1
  end.

(** [TAOHUA_MAP] of deities.py, a dict with every branch as a key. *)
Definition TAOHUA_MAP (b : EarthlyBranch) : EarthlyBranch :=
  match b with
  | YIN | WU_BRANCH | XU => MAO
  | SI | YOU | CHOU => WU_BRANCH
  | HAI | MAO | WEI => ZI
  | SHEN | ZI | CHEN => YOU
  end.

(* ================================================================== *)
(** ** calculator.py: [_derive_life_domains] (inner function of
    [calculate_age_periods]) *)

Record LifeDomains := {
  ld_career : Z; ld_wealth : Z; ld_relationships : Z; ld_health : Z; ld_learning : Z }.

(** The clamp loop: [if v < 0: v = 0] then [if v > 3: v = 3]. *)
Definition clamp03 (v : Z) : Z :=
  let v := if v <? 0 then 0 else v in
  if 3 <? v then 3 else v.

(** [main_element] lower-cased; [None] is a string that is none of the five
    element names, which gets no base emphasis. [relationship] is the
    [get_element_relationships] string. *)
Definition _derive_life_domains (main_element : option Element)
    (relationship : Relationship) : LifeDomains :=
  let '(c, w, r, h, l) :=
    match main_element with
    | Some WOOD => (1, 0, 0, 0, 2)
    | Some FIRE => (2, 0, 1, 0, 0)
    | Some EARTH => (0, 1, 0, 2, 0)
    | Some METAL => (1, 2, 0, 0, 0)
    | Some WATER => (0, 0, 2, 0, 1)
    | None => (0, 0, 0, 0, 0)
    end in
  let '(c, w, r, h, l) :=
    match relationship with
    | R_generates => (c + 1, w + 1, r + 1, h + 1, l + 1)
    | R_destroys => (c + 1, w, r, h + 1, l)
    | R_same => (c, w, r + 1, h, l + 1)
    | R_none => (c, w, r, h, l)
    end in
  {| ld_career := clamp03 c; ld_wealth := clamp03 w; ld_relationships := clamp03 r;
     ld_health := clamp03 h; ld_learning := clamp03 l |}.

(* ================================================================== *)
(** ** elements.py: [count_elements] and [get_element_balance] *)

(** [elem.value] of the [Element] enum. *)
Definition element_value (e : Element) : string :=
  match e with
  | WOOD => "Wood" | FIRE => "Fire" | EARTH => "Earth"
  | METAL => "Metal" | WATER => "Water"
  end.

(** [counts[elem_str] += 1] on the dict built from the five element names,
    whose keys are pairwise distinct. *)
Definition counts_incr (k : string) (counts : list (string * Z)) : list (string * Z) :=
  map (fun kv => if String.eqb (fst kv) k then (fst kv, snd kv + 1) else kv) counts.

(** The dict is an association list in insertion order (the order of the
    [Element] enum). A string that is no element name is skipped. *)
Definition count_elements (elements_list : list string) : list (string * Z) :=
  fold_left
    (fun counts elem_str =>
       if existsb (fun elem => String.eqb (element_value elem) elem_str) all_elements
       then counts_incr elem_str counts
       else counts)
    elements_list
    (map (fun elem => (element_value elem, 0)) all_elements).

Inductive Balance := bal_insufficient_data | bal_weak | bal_neutral | bal_strong.

(** The three recommendation texts: the f-strings over [', '.join(...)]
    are represented by the list they join. *)
Inductive Recommendation :=
| rec_not_enough
| rec_missing (deficient : list string)
| rec_excess (abundant : list string)
| rec_balanced.

Record ElementBalance := {
  eb_total : Z;
  eb_balance : Balance;
  eb_deficient : list string;
  eb_abundant : list string;
  eb_recommendations : Recommendation }.

Definition Qltb (x y : Q) : bool := negb (Qle_bool y x).

Definition zsum (l : list Z) : Z := fold_right Z.add 0 l.

(** [avg * 0.7] and [avg * 1.3] are computed exactly in Q. The float
    results agree with them in every comparison against an integer count
    unless [7 * total / 50] or [13 * total / 50] is an integer, i.e. unless
    [total] is a multiple of 50 (a chart has total 8). *)
Definition get_element_balance (element_counts : list (string * Z)) : ElementBalance :=
  let total := zsum (map snd element_counts) in
  if total =? 0 then
    {| eb_total := 0; eb_balance := bal_insufficient_data; eb_deficient := [];
       eb_abundant := []; eb_recommendations := rec_not_enough |}
  else
    let avg := (inject_Z total / inject_Z 5)%Q in
    let deficient := map fst (filter (fun kv => Qltb (inject_Z (snd kv)) (avg * (7 # 10))%Q)
                                     element_counts) in
    let abundant := map fst (filter (fun kv => Qltb (avg * (13 # 10)) (inject_Z (snd kv)))
                                    element_counts) in
    let balance :=
      if (2 <=? List.length deficient)%nat then bal_weak
      else if (2 <=? List.length abundant)%nat then bal_strong
      else bal_neutral in
    let recommendations :=
      match deficient, abundant with
      | _ :: _, _ => rec_missing deficient
      | [], _ :: _ => rec_excess abundant
      | [], [] => rec_balanced
      end in
    {| eb_total := total; eb_balance := balance; eb_deficient := deficient;
       eb_abundant := abundant; eb_recommendations := recommendations |}.

(** The [all_elements] list of [calculate_bazi]: stem then branch element of
    the year, month, day and hour pillars. *)
Definition chart_all_elements (yp mp dp hp : Pillar) : list string :=
  flat_map (fun p => [element_value (stem_element (p_stem p));
                      element_value (branch_element (p_branch p))])
           [yp; mp; dp; hp].

(* ================================================================== *)
(** ** ten_gods.py: [annotate_four_pillars_with_ten_gods] and
    [get_strongest_ten_god] *)

Definition TenGod_eqb (a b : TenGod) : bool :=
  match a, b with
  | friend, friend | rob_wealth, rob_wealth | eating_god, eating_god
  | hurting_officer, hurting_officer | indirect_wealth, indirect_wealth
  | direct_wealth, direct_wealth | seven_killings, seven_killings
  | direct_officer, direct_officer | indirect_resource, indirect_resource
  | direct_resource, direct_resource => true
  | _, _ => false
  end.

(** The ten-god annotation of one position: [None] when the stem or branch
    dict is missing, empty or carries no [ten_god] entry; [Some k] when its
    [ten_god] has key [k] (the annotations of
    [annotate_four_pillars_with_ten_gods] come from [TEN_GODS], whose keys
    are the ten categories). *)
Record TgPillar := { tg_stem : option TenGod; tg_branch : option TenGod }.

Record TgFourPillars := {
  tg_year : TgPillar; tg_month : TgPillar; tg_day : TgPillar; tg_hour : TgPillar }.

(** [annotate_four_pillars_with_ten_gods] on the chart of [calculate_bazi],
    whose stems and branches are all present. *)
Definition annotate_four_pillars_with_ten_gods (yp mp dp hp : Pillar)
    (dm_element : Element) (dm_yin_yang : YinYang) : TgFourPillars :=
  let ann p := {| tg_stem := Some (get_ten_god dm_element dm_yin_yang
                                     (stem_element (p_stem p)) (stem_yin_yang (p_stem p)));
                  tg_branch := Some (get_ten_god dm_element dm_yin_yang
                                     (branch_element (p_branch p)) (branch_yin_yang (p_branch p))) |} in
  {| tg_year := ann yp; tg_month := ann mp; tg_day := ann dp; tg_hour := ann hp |}.

(** [counts.get(key, 0)] on an insertion-ordered dict. *)
Fixpoint tg_lookup (k : TenGod) (counts : list (TenGod * Z)) : Z :=
  match counts with
  | [] => 0
  | (k', v) :: r => if TenGod_eqb k k' then v else tg_lookup k r
  end.

(** [counts[key] = counts.get(key, 0) + 1]: update in place, or append. *)
Fixpoint tg_bump (k : TenGod) (counts : list (TenGod * Z)) : list (TenGod * Z) :=
  match counts with
  | [] => [(k, 1)]
  | (k', v) :: r => if TenGod_eqb k k' then (k', v + 1) :: r else (k', v) :: tg_bump k r
  end.

(** One iteration of the loop over the pillars; [is_day] is
    [pillar_name == "day"], whose [continue] also skips the branch. *)
Definition tg_count_pillar (is_day : bool) (pillar : TgPillar) (counts : list (TenGod * Z))
    : list (TenGod * Z) :=
  let count_branch counts :=
    match tg_branch pillar with Some k => tg_bump k counts | None => counts end in
  match tg_stem pillar with
  | Some k => if is_day then counts else count_branch (tg_bump k counts)
  | None => count_branch counts
  end.

Definition tg_counts (fp : TgFourPillars) : list (TenGod * Z) :=
  tg_count_pillar false (tg_hour fp)
    (tg_count_pillar true (tg_day fp)
       (tg_count_pillar false (tg_month fp)
          (tg_count_pillar false (tg_year fp) []))).

(** Python's [max(xs, key=f)]: the first element of maximal [f]. *)
Definition py_max_by {A} (f : A -> Z) (xs : list A) : option A :=
  match xs with
  | [] => None
  | x :: r => Some (fold_left (fun best y => if f best <? f y then y else best) r x)
  end.

Record StrongestTenGod := { stg_key : TenGod; stg_count : Z }.

Definition get_strongest_ten_god (four_pillars : TgFourPillars) : StrongestTenGod :=
  let counts := tg_counts four_pillars in
  match py_max_by (fun k => tg_lookup k counts) (map fst counts) with
  | None => {| stg_key := friend; stg_count := 0 |}
  | Some strongest_key => {| stg_key := strongest_key; stg_count := tg_lookup strongest_key counts |}
  end.

(** Occurrences of a ten god among annotated positions. *)
Definition tg_occ (k : TenGod) (l : list (option TenGod)) : Z :=
  zsum (map (fun o => match o with Some k' => if TenGod_eqb k k' then 1 else 0 | None => 0 end) l).

(* ================================================================== *)
(** ** deities.py: [get_deities_for_chart] *)

Definition EarthlyBranch_eqb (a b : EarthlyBranch) : bool := BRANCH_INDEX a =? BRANCH_INDEX b.

(** [TIANYI_GUIREN]: day stem to its two nobleman branches. *)
Definition TIANYI_GUIREN (s : HeavenlyStem) : list EarthlyBranch :=
  match s with
  | JIA | WU | GENG => [CHOU; WEI]
  | YI | JI => [ZI; SHEN]
  | BING | DING => [HAI; YOU]
  | REN | GUI => [MAO; SI]
  | XIN => [YIN; WU_BRANCH]
  end.

Inductive PillarName := pn_year | pn_month | pn_day | pn_hour.

(** The deity dicts without their static texts: the nobleman star with its
    [found_in] list (joined by "," into [pillar]), and the peach blossom
    with the triggering and the triggered pillar (formatted as
    "<trigger>_triggers_<target>"). *)
Inductive Deity :=
| D_tianyi_guiren (found_in : list PillarName)
| D_taohua (trigger target : PillarName).

(** [get_deities_for_chart] on the four pillars built by [calculate_bazi]
    (every stem and branch present, dict order year, month, day, hour);
    its [day_master] argument is never read. *)
Definition get_deities_for_chart (yp mp dp hp : Pillar) : list Deity :=
  let noble_branches := TIANYI_GUIREN (p_stem dp) in
  let in_noble b := existsb (EarthlyBranch_eqb b) noble_branches in
  let found_in := (if in_noble (p_branch dp) then [pn_day] else [])
                  ++ (if in_noble (p_branch hp) then [pn_hour] else []) in
  let deities := match found_in with [] => [] | _ :: _ => [D_tianyi_guiren found_in] end in
  let four_pillars := [(pn_year, yp); (pn_month, mp); (pn_day, dp); (pn_hour, hp)] in
  let peach pillar_name br :=
    match List.find (fun pn_p => EarthlyBranch_eqb (p_branch (snd pn_p)) (TAOHUA_MAP br))
                    four_pillars with
    | Some (pn, _) => Some (D_taohua pillar_name pn)
    | None => None
    end in
  match peach pn_year (p_branch yp) with
  | Some d => deities ++ [d]
  | None =>
      match peach pn_day (p_branch dp) with
      | Some d => deities ++ [d]
      | None => deities
      end
  end.

(* ================================================================== *)
(** ** daily_forecast.py: [get_energy_rhythm] and the lucky hour of
    [get_lucky_items] *)

(** [_CHINESE_HOURS]: the representative hour and the branch whose
    [name_cn] labels the entry (time ranges and localized names left out). *)
Definition _CHINESE_HOURS : list (Z * EarthlyBranch) :=
  [(0, ZI); (1, CHOU); (3, YIN); (5, MAO); (7, CHEN); (9, SI); (11, WU_BRANCH);
   (13, WEI); (15, SHEN); (17, YOU); (19, XU); (21, HAI)].

(** [max(0, min(100, int(round(sc))))] on an integer-valued score. *)
Definition clamp0_100 (v : Z) : Z := Z.max 0 (Z.min 100 v).

Inductive Level := level_high | level_medium | level_low.

Record RhythmEntry := {
  re_branch : EarthlyBranch; re_element : Element; re_score : Z; re_level : Level }.

(** The body of the loop of [get_energy_rhythm] for an hour element. *)
Definition rhythm_score (dm_element use_god_elem h_elem : Element) : Z :=
  let sc := 50 in
  let sc := if Element_eqb h_elem use_god_elem then sc + 25 else sc in
  let sc := if Element_eqb h_elem dm_element then sc + 10 else sc in
  let sc := match get_element_relationships h_elem dm_element with
            | R_generates => sc + 15
            | R_destroys => sc - 15
            | _ => sc
            end in
  let sc := if Element_eqb h_elem (CONTROLLER_OF dm_element) then sc - 10 else sc in
  clamp0_100 sc.

Definition rhythm_level (sc : Z) : Level :=
  if 75 <=? sc then level_high else if 45 <=? sc then level_medium else level_low.

(** [get_stem_element(h_stem)] raises on a [None] stem: the result is then
    [None]. *)
Definition get_energy_rhythm (dm_element use_god_elem : Element) (daily_stem : HeavenlyStem)
    : option (list RhythmEntry) :=
  fold_right
    (fun hour acc =>
       let* rest := acc in
       let* h_stem := fst (get_hour_stem_branch daily_stem (fst hour)) in
       let h_elem := stem_element h_stem in
       let sc := rhythm_score dm_element use_god_elem h_elem in
       Some ({| re_branch := snd hour; re_element := h_elem; re_score := sc;
                re_level := rhythm_level sc |} :: rest))
    (Some []) _CHINESE_HOURS.

Record LuckyHour := { lh_branch : EarthlyBranch; lh_score : Z }.

Definition lucky_hour_score (use_god_elem dm_element h_elem : Element) : Z :=
  (if Element_eqb h_elem use_god_elem then 30 else 0)
  + (if Element_eqb h_elem dm_element then 10 else 0)
  + (if Relationship_eqb (get_element_relationships h_elem dm_element) R_generates
     then 15 else 0).

(** The [best_hour] loop of [get_lucky_items]: the state is
    [(best_score, best_hour)], starting from [(-999, None)]. *)
Definition get_lucky_hour (use_god_elem dm_element : Element) (daily_stem : HeavenlyStem)
    : option (option LuckyHour) :=
  option_map snd
    (fold_left
       (fun acc hour =>
          let* st := acc in
          let* h_stem := fst (get_hour_stem_branch daily_stem (fst hour)) in
          let sc := lucky_hour_score use_god_elem dm_element (stem_element h_stem) in
          if fst st <? sc then Some (sc, Some {| lh_branch := snd hour; lh_score := sc |})
          else Some st)
       _CHINESE_HOURS (Some (-999, None))).

(* ================================================================== *)
(** ** Auxiliary definitions for the proofs *)

(** Occurrences of a string in a list. *)
Definition str_occ (s : string) (l : list string) : Z :=
  zsum (map (fun x => if String.eqb x s then 1 else 0) l).

(** The six stem and branch annotations of the year, month and hour pillars. *)
Definition tg_six_positions (fp : TgFourPillars) : list (option TenGod) :=
  [tg_stem (tg_year fp); tg_branch (tg_year fp); tg_stem (tg_month fp);
   tg_branch (tg_month fp); tg_stem (tg_hour fp); tg_branch (tg_hour fp)].

(** Finite check of [get_element_balance] on every count vector of total 8. *)
Definition r9 : list Z := [0; 1; 2; 3; 4; 5; 6; 7; 8].

Definition counts_vec (c1 c2 c3 c4 c5 : Z) : list (string * Z) :=
  [("Wood"%string, c1); ("Fire"%string, c2); ("Earth"%string, c3); ("Metal"%string, c4);
   ("Water"%string, c5)].

Definition balance_of_eight_b (r : ElementBalance) : bool :=
  (eb_total r =? 8)
  && match eb_balance r with bal_weak | bal_neutral => true | _ => false end
  && match eb_deficient r with [] => false | _ => true end.

Definition check_balance_of_eight : bool :=
  forallb (fun c1 => forallb (fun c2 => forallb (fun c3 => forallb (fun c4 =>
    forallb (fun c5 =>
      implb (c1 + c2 + c3 + c4 + c5 =? 8)
            (balance_of_eight_b (get_element_balance (counts_vec c1 c2 c3 c4 c5))))
    r9) r9) r9) r9) r9.

(** Finite check of the lucky hour chosen by [get_lucky_hour]. *)
Definition all_stems : list HeavenlyStem := [JIA; YI; BING; DING; WU; JI; GENG; XIN; REN; GUI].

Definition lucky_hour_ok_b (ug dm : Element) (ds : HeavenlyStem) : bool :=
  match get_lucky_hour ug dm ds with
  | Some (Some lh) =>
      YinYang_eqb (branch_yin_yang (lh_branch lh)) Yang
      && forallb (fun hour => match fst (get_hour_stem_branch ds (fst hour)) with
                              | Some hs => lucky_hour_score ug dm (stem_element hs) <=? lh_score lh
                              | None => false
                              end) _CHINESE_HOURS
      && existsb (fun hour => EarthlyBranch_eqb (snd hour) (lh_branch lh)
                              && match fst (get_hour_stem_branch ds (fst hour)) with
                                 | Some hs => lh_score lh =? lucky_hour_score ug dm (stem_element hs)
                                 | None => false
                                 end) _CHINESE_HOURS
  | _ => false
  end.

Definition check_lucky_hour : bool :=
  forallb (fun ug => forallb (fun dm => forallb (lucky_hour_ok_b ug dm) all_stems)
                             all_elements) all_elements.

(* ================================================================== *)
(** * Theorems *)

Lemma Element_eqb_eq (a b : Element) : Element_eqb a b = true <-> a = b.
Proof. destruct a, b; simpl; split; congruence. Qed.

(** ** Registry: total index lookups *)

Lemma INDEX_TO_STEM_total (i : Z) :
  0 <= i < 10 -> exists s, INDEX_TO_STEM i = Some s /\ STEM_INDEX s = i.
Proof.
  intros H.
  assert (i = 0 \/ i = 1 \/ i = 2 \/ i = 3 \/ i = 4 \/ i = 5 \/ i = 6
          \/ i = 7 \/ i = 8 \/ i = 9) by lia.
  repeat destruct H0 as [-> | H0]; subst; eexists; split; reflexivity.
Qed.

Lemma INDEX_TO_BRANCH_total (i : Z) :
  0 <= i < 12 -> exists b, INDEX_TO_BRANCH i = Some b /\ BRANCH_INDEX b = i.
Proof.
  intros H.
  assert (i = 0 \/ i = 1 \/ i = 2 \/ i = 3 \/ i = 4 \/ i = 5 \/ i = 6
          \/ i = 7 \/ i = 8 \/ i = 9 \/ i = 10 \/ i = 11) by lia.
  repeat destruct H0 as [-> | H0]; subst; eexists; split; reflexivity.
Qed.

Lemma get_stem_by_index_total (n : Z) :
  exists s, get_stem_by_index n = Some s /\ STEM_INDEX s = n mod 10.
Proof. apply INDEX_TO_STEM_total, Z.mod_pos_bound; lia. Qed.

Lemma get_branch_by_index_total (n : Z) :
  exists b, get_branch_by_index n = Some b /\ BRANCH_INDEX b = n mod 12.
Proof. apply INDEX_TO_BRANCH_total, Z.mod_pos_bound; lia. Qed.

(** ** C10 *)

(** C10: [get_stem_by_index] and [get_branch_by_index] are total on all
    integers, negative ones included, returning the stem (branch) of index
    [n mod 10] ([n mod 12]); hence every luck pillar of the eight luck
    periods of [calculate_age_periods] is a valid stem and branch, for any
    gender and natal year pillar (direction 1 or -1). *)
Theorem index_lookups_total_and_luck_pillars_valid :
  (forall n : Z, exists s, get_stem_by_index n = Some s /\ STEM_INDEX s = n mod 10) /\
  (forall n : Z, exists b, get_branch_by_index n = Some b /\ BRANCH_INDEX b = n mod 12) /\
  (forall gender ys yb,
      List.length (age_period_luck_pillars gender ys yb) = 8%nat /\
      Forall (fun p => exists s b, p = (Some s, Some b))
             (age_period_luck_pillars gender ys yb)).
Proof.
  split; [exact get_stem_by_index_total |].
  split; [exact get_branch_by_index_total |].
  intros gender ys yb; split.
  - unfold age_period_luck_pillars; rewrite List.length_map, List.length_seq; reflexivity.
  - apply Forall_forall; intros p Hp.
    unfold age_period_luck_pillars in Hp; apply in_map_iff in Hp.
    destruct Hp as [i [<- _]]; unfold luck_pillar.
    destruct (get_stem_by_index_total
                ((STEM_INDEX ys + (Z.of_nat i + 1) * _get_luck_direction gender ys) mod 10))
      as [s [Hs _]].
    destruct (get_branch_by_index_total
                ((BRANCH_INDEX yb + (Z.of_nat i + 1) * _get_luck_direction gender ys) mod 12))
      as [b [Hb _]].
    rewrite Hs, Hb; eauto.
Qed.

(** ** C3 *)

(** C3: the year pillar repeats with period 60 for every year, and no
    proper positive divisor [d] of 60 is a period: for each such [d] some
    year [Y] has a different pillar from year [Y + d]. *)
Theorem year_pillar_period_60_minimal :
  (forall Y : Z, get_year_stem_branch Y = get_year_stem_branch (Y + 60)) /\
  proper_divisors_60 = [1; 2; 3; 4; 5; 6; 10; 12; 15; 20; 30] /\
  Forall (fun d => exists Y, get_year_stem_branch Y <> get_year_stem_branch (Y + d))
         proper_divisors_60.
Proof.
  assert (Hd : proper_divisors_60 = [1; 2; 3; 4; 5; 6; 10; 12; 15; 20; 30])
    by (vm_compute; reflexivity).
  split; [| split; [exact Hd |]].
  - intros Y; unfold get_year_stem_branch.
    replace (Y + 60 - GREGORIAN_EPOCH) with ((Y - GREGORIAN_EPOCH) + 1 * 60) by ring.
    rewrite Z_mod_plus_full; reflexivity.
  - rewrite Hd.
    repeat (apply Forall_cons; [exists 1900; vm_compute; discriminate |]).
    apply Forall_nil.
Qed.

(** ** C4 *)

(** C4: for all 5 x 2 x 5 x 2 (Day Master, target) element/polarity
    combinations exactly one of the five guards of [get_ten_god] holds, and
    the category returned is the one of that guard (the fallback is never
    reached); so every combination falls into exactly one of the ten
    categories. *)
Theorem ten_god_total_exclusive :
  forall dm dmp t tp,
    count_true (ten_god_guards dm t) = 1%nat /\
    exists i, first_true (ten_god_guards dm t) = Some i /\
      get_ten_god dm dmp t tp = ten_god_of_guard i (YinYang_eqb dmp tp) /\
      In (get_ten_god dm dmp t tp) all_ten_gods.
Proof.
  intros dm dmp t tp.
  destruct dm, dmp, t, tp; split; try reflexivity; eexists;
    (split; [reflexivity | split; [reflexivity | simpl; tauto]]).
Qed.

(** ** C7 *)

(** C7 (as stated, refuted): for Wood and Earth none of the four listed
    alternatives holds: Wood does not generate Earth, Earth does not
    generate Wood, they differ, and the relationship of Wood to Earth is
    not "none" (it is "destroys"). *)
Lemma relationship_four_way_counterexample :
  get_element_relationships WOOD EARTH <> R_generates /\
  get_element_relationships EARTH WOOD <> R_generates /\
  WOOD <> EARTH /\
  get_element_relationships WOOD EARTH <> R_none /\
  get_element_relationships WOOD EARTH = R_destroys.
Proof. repeat split; discriminate. Qed.

(** C7 (amended): for every ordered pair exactly one of a = b,
    generates(a,b), generates(b,a), destroys(a,b), destroys(b,a) holds of
    the relationship function; the relationship value "none" for (a, b) is
    exactly the case where b generates or destroys a; and every element has
    exactly one generator and exactly one destroyer among the five
    elements. *)
Theorem relationship_five_way_exclusive :
  (forall a b,
      count_true
        [ Element_eqb a b;
          Relationship_eqb (get_element_relationships a b) R_generates;
          Relationship_eqb (get_element_relationships b a) R_generates;
          Relationship_eqb (get_element_relationships a b) R_destroys;
          Relationship_eqb (get_element_relationships b a) R_destroys ] = 1%nat) /\
  (forall a b,
      get_element_relationships a b = R_none <->
      get_element_relationships b a = R_generates \/
      get_element_relationships b a = R_destroys) /\
  (forall e, exists! g, get_element_relationships g e = R_generates) /\
  (forall e, exists! d, get_element_relationships d e = R_destroys).
Proof.
  split; [intros a b; destruct a, b; reflexivity |].
  split; [intros a b; destruct a, b; cbn; intuition congruence |].
  split; intros e.
  - exists (match e with WOOD => WATER | FIRE => WOOD | EARTH => FIRE
                    | METAL => EARTH | WATER => METAL end).
    split; [destruct e; reflexivity |].
    intros x Hx; destruct e, x; cbv in Hx; congruence.
  - exists (match e with WOOD => METAL | FIRE => WATER | EARTH => WOOD
                    | METAL => FIRE | WATER => EARTH end).
    split; [destruct e; reflexivity |].
    intros x Hx; destruct e, x; cbv in Hx; congruence.
Qed.

(** ** C2 *)

Lemma div_step (y k : Z) :
  0 < k -> y / k - (y - 1) / k = if y mod k =? 0 then 1 else 0.
Proof.
  intros Hk.
  pose proof (Z.div_mod (y - 1) k ltac:(lia)) as Hdm.
  pose proof (Z.mod_pos_bound (y - 1) k Hk) as Hb.
  set (q := (y - 1) / k) in *; set (r := (y - 1) mod k) in *.
  destruct (Z.eq_dec r (k - 1)) as [Hr | Hr].
  - assert (Hq : y / k = q + 1)
      by (symmetry; apply (Z.div_unique y k (q + 1) 0); lia).
    assert (Hm : y mod k = 0)
      by (symmetry; apply (Z.mod_unique y k (q + 1) 0); lia).
    rewrite Hq, Hm; simpl; lia.
  - assert (Hq : y / k = q)
      by (symmetry; apply (Z.div_unique y k q (r + 1)); lia).
    assert (Hm : y mod k = r + 1)
      by (symmetry; apply (Z.mod_unique y k q (r + 1)); lia).
    rewrite Hq, Hm.
    destruct (Z.eqb_spec (r + 1) 0); lia.
Qed.

Lemma mod_zero_divides (y a b : Z) :
  0 < a -> 0 < b -> y mod (a * b) = 0 -> y mod a = 0.
Proof.
  intros Ha Hb H.
  apply Z.mod_divide in H; [| lia].
  apply Z.mod_divide; [lia |].
  eapply Z.divide_trans; [| exact H]; exists b; ring.
Qed.

Lemma days_before_year_step (y : Z) :
  _days_before_year (y + 1) - _days_before_year y
  = if is_leap_year y then 366 else 365.
Proof.
  unfold _days_before_year.
  replace (y + 1 - 1) with y by ring.
  pose proof (div_step y 4 ltac:(lia)) as H4.
  pose proof (div_step y 100 ltac:(lia)) as H100.
  pose proof (div_step y 400 ltac:(lia)) as H400.
  assert (I1 : y mod 400 = 0 -> y mod 100 = 0)
    by (intros E; apply (mod_zero_divides y 100 4); [lia | lia | exact E]).
  assert (I2 : y mod 100 = 0 -> y mod 4 = 0)
    by (intros E; apply (mod_zero_divides y 4 25); [lia | lia | exact E]).
  unfold is_leap_year.
  destruct (Z.eqb_spec (y mod 400) 0) as [E400 | E400];
  destruct (Z.eqb_spec (y mod 100) 0) as [E100 | E100];
  destruct (Z.eqb_spec (y mod 4) 0) as [E4 | E4]; simpl in *;
    try lia; exfalso; tauto.
Qed.

Lemma year_days_loop_ordinal (n : nat) (y : Z) :
  year_days_loop y n = _days_before_year (y + Z.of_nat n) - _days_before_year y.
Proof.
  revert y; induction n as [| n IH]; intros y; simpl.
  - replace (y + 0) with y by ring; ring.
  - rewrite IH, <- days_before_year_step.
    replace (y + 1 + Z.of_nat n) with (y + Z.pos (Pos.of_succ_nat n)) by lia.
    ring.
Qed.

(** The month loop only looks at the leap flag of its year. *)
Fixpoint month_days_loop_l (leap : bool) (m : Z) (n : nat) : option Z :=
  match n with
  | O => Some 0
  | S n' =>
      match (if (m =? 2) && leap then Some 29 else py_index days_in_month_list (m - 1)) with
      | None => None
      | Some k =>
          match month_days_loop_l leap (m + 1) n' with
          | None => None
          | Some rest => Some (k + rest)
          end
      end
  end.

Lemma month_days_loop_leap (year m : Z) (n : nat) :
  month_days_loop year m n = month_days_loop_l (is_leap_year year) m n.
Proof.
  revert m; induction n as [| n IH]; intros m; simpl; [reflexivity |].
  rewrite IH; reflexivity.
Qed.

Lemma month_days_loop_before_month (year month : Z) :
  1 <= month <= 12 ->
  month_days_loop year 1 (Z.to_nat (month - 1)) = Some (_days_before_month year month).
Proof.
  intros Hm; rewrite month_days_loop_leap; unfold _days_before_month.
  assert (month = 1 \/ month = 2 \/ month = 3 \/ month = 4 \/ month = 5 \/ month = 6
          \/ month = 7 \/ month = 8 \/ month = 9 \/ month = 10 \/ month = 11
          \/ month = 12) as Hc by lia.
  destruct (is_leap_year year);
    repeat destruct Hc as [-> | Hc]; try (subst month); reflexivity.
Qed.

Example day_pillar_epoch : get_day_stem_branch 1900 1 1 = Some (Some JIA, Some ZI).
Proof. reflexivity. Qed.

Example daily_pillar_sample : get_daily_pillar (mkdate 1990 5 15) = (Some GENG, Some WU_BRANCH).
Proof. reflexivity. Qed.

(** C2: for every valid Gregorian date with year in 1900..2100, the day
    pillar of the explicit day-count loop ([get_day_stem_branch]) is the
    day pillar of the ordinal difference from 1900-01-01
    ([get_daily_pillar]): same stem and same branch. *)
Theorem day_pillar_loop_matches_daily_pillar (year month day : Z) :
  1900 <= year <= 2100 ->
  valid_date (mkdate year month day) = true ->
  get_day_stem_branch year month day = Some (get_daily_pillar (mkdate year month day)).
Proof.
  intros Hy Hv.
  unfold valid_date in Hv; simpl in Hv.
  repeat rewrite andb_true_iff in Hv; repeat rewrite Z.leb_le in Hv.
  destruct Hv as [[[[[_ _] Hm1] Hm2] _] _].
  unfold get_day_stem_branch.
  rewrite month_days_loop_before_month by lia.
  rewrite year_days_loop_ordinal.
  replace (GREGORIAN_EPOCH + Z.of_nat (Z.to_nat (year - GREGORIAN_EPOCH))) with year
    by (unfold GREGORIAN_EPOCH; lia).
  unfold get_daily_pillar, date_sub_days, toordinal; simpl d_year; simpl d_month; simpl d_day.
  replace (_days_before_year year - _days_before_year GREGORIAN_EPOCH
           + _days_before_month year month + day - 1)
    with (_days_before_year year + _days_before_month year month + day
          - (_days_before_year 1900 + _days_before_month 1900 1 + 1))
    by (unfold GREGORIAN_EPOCH; vm_compute (_days_before_month 1900 1); ring).
  reflexivity.
Qed.

Lemma day_pillar_loop_matches_daily_pillar_witness :
  (1900 <= 2024 <= 2100 /\ valid_date (mkdate 2024 2 29) = true) /\
  get_day_stem_branch 2024 2 29 = Some (get_daily_pillar (mkdate 2024 2 29)).
Proof.
  split; [split; [lia | reflexivity] |].
  apply day_pillar_loop_matches_daily_pillar; [lia | reflexivity].
Defined.

(** ** C5 *)

Lemma strength_step_term (dm : Element) (q : Q) (pos : option Element) :
  (strength_step dm q pos == q + spec_position_term dm pos)%Q.
Proof.
  destruct pos as [e |]; simpl; [| ring].
  destruct dm, e; simpl; ring.
Qed.

Lemma fold_strength_step (dm : Element) (l : list (option Element)) (q : Q) :
  (fold_left (strength_step dm) l q == q + fold_right Qplus 0 (map (spec_position_term dm) l))%Q.
Proof.
  revert q; induction l as [| p l IH]; intros q; simpl; [ring |].
  rewrite IH, strength_step_term; ring.
Qed.

(** C5: the Day Master strength score is the seasonal term (+2 strong,
    -2 weak, else 0) plus, over the 7 non-Day-stem positions, +1 same
    element, +0.5 Resource, -1 Controller, -0.5 Output; a score >= 1.5
    gives strong with Use God Output (secondary Controller) and Avoid God
    the same element (secondary Resource); a score <= -1.5 gives weak with
    Use God Resource (secondary same element) and Avoid God Controller
    (secondary Output); otherwise balanced with Use God Resource. *)
Theorem dm_strength_score_and_use_god (dm : Element) (counts : Element -> Z)
    (seasonal : string) (fp : FourPillarElems) :
  let s := spec_strength_score dm seasonal fp in
  let r := determine_use_god dm counts seasonal fp in
  (_calculate_dm_strength_score dm counts seasonal fp == s)%Q /\
  (dm_strength_score r == s)%Q /\
  ((3 # 2 <= s)%Q ->
     dm_strength r = dm_strong /\ use_god r = OUTPUT_OF dm /\
     use_god_secondary r = CONTROLLER_OF dm /\ avoid_god r = dm /\
     avoid_god_secondary r = RESOURCE_FOR dm) /\
  ((s <= -3 # 2)%Q ->
     dm_strength r = dm_weak /\ use_god r = RESOURCE_FOR dm /\
     use_god_secondary r = dm /\ avoid_god r = CONTROLLER_OF dm /\
     avoid_god_secondary r = OUTPUT_OF dm) /\
  ((-3 # 2 < s)%Q -> (s < 3 # 2)%Q ->
     dm_strength r = dm_balanced /\ use_god r = RESOURCE_FOR dm).
Proof.
  intros s r.
  assert (Hs : (_calculate_dm_strength_score dm counts seasonal fp == s)%Q).
  { unfold _calculate_dm_strength_score, s, spec_strength_score.
    rewrite fold_strength_step; reflexivity. }
  subst r; unfold determine_use_god.
  set (c := _calculate_dm_strength_score dm counts seasonal fp) in *.
  split; [exact Hs |].
  split; [destruct (Qle_bool (3 # 2) c), (Qle_bool c (-3 # 2)); exact Hs |].
  split; [| split].
  - intros H.
    assert (Hb : Qle_bool (3 # 2) c = true) by (apply Qle_bool_iff; rewrite Hs; exact H).
    rewrite Hb; repeat split.
  - intros H.
    assert (Hb : Qle_bool c (-3 # 2) = true) by (apply Qle_bool_iff; rewrite Hs; exact H).
    assert (Hn : Qle_bool (3 # 2) c = false).
    { apply not_true_is_false; intros Hc; apply Qle_bool_iff in Hc.
      rewrite Hs in Hc; apply (Qle_not_lt (3 # 2) (-3 # 2)); [| reflexivity].
      eapply Qle_trans; [exact Hc | exact H]. }
    rewrite Hn, Hb; repeat split.
  - intros H1 H2.
    assert (Hn1 : Qle_bool (3 # 2) c = false).
    { apply not_true_is_false; intros Hc; apply Qle_bool_iff in Hc.
      rewrite Hs in Hc; apply (Qle_not_lt _ _ Hc H2). }
    assert (Hn2 : Qle_bool c (-3 # 2) = false).
    { apply not_true_is_false; intros Hc; apply Qle_bool_iff in Hc.
      rewrite Hs in Hc; apply (Qle_not_lt _ _ Hc H1). }
    rewrite Hn1, Hn2; split; reflexivity.
Qed.

Lemma dm_strength_score_and_use_god_witness :
  let fp := {| fp_year := {| stem_elem := Some WOOD; branch_elem := Some WATER |};
               fp_month := {| stem_elem := Some WOOD; branch_elem := Some WOOD |};
               fp_day := {| stem_elem := Some WOOD; branch_elem := Some EARTH |};
               fp_hour := {| stem_elem := Some FIRE; branch_elem := Some WOOD |} |} in
  (3 # 2 <= spec_strength_score WOOD "strong" fp)%Q /\
  dm_strength (determine_use_god WOOD (fun _ => 0) "strong" fp) = dm_strong /\
  use_god (determine_use_god WOOD (fun _ => 0) "strong" fp) = FIRE.
Proof.
  intros fp.
  assert (H : (3 # 2 <= spec_strength_score WOOD "strong" fp)%Q)
    by (vm_compute; discriminate).
  split; [exact H |].
  destruct (dm_strength_score_and_use_god WOOD (fun _ => 0) "strong" fp)
    as [_ [_ [Hstrong _]]].
  destruct (Hstrong H) as [H1 [H2 _]].
  split; [exact H1 | exact H2].
Defined.

(** ** C6 *)

Lemma branch_loop_sum (d : Z) (l : list Z) (score : Z) :
  fold_left (fun score nb_idx =>
               let score := if _is_clash d nb_idx then score - 8 else score in
               if _is_combination d nb_idx then score + 8 else score) l score
  = score + fold_right Z.add 0
              (map (fun nb => (if _is_clash d nb then -8 else 0)
                              + (if _is_combination d nb then 8 else 0)) l).
Proof.
  revert score; induction l as [| nb l IH]; intros score; simpl; [ring |].
  rewrite IH.
  destruct (_is_clash d nb), (_is_combination d nb); ring.
Qed.

(** C6: the overall daily score is 50 plus the first matching Use-God /
    Avoid-God term (+25, +15, -20, -12), plus +10 / +5 / -10 when the daily
    element generates / equals / destroys the Day Master and -3 / -5 when
    the Day Master generates / destroys the daily element, plus -8 per
    clashing and +8 per combining natal branch, clamped into [0, 100]; the
    result lies in [0, 100] for every input. *)
Theorem overall_score_formula_and_bounds
    (dm : Element) (ug ug2 ag ag2 : option Element) (daily : Element)
    (db : Z) (natal : list Z) :
  calculate_overall_score dm ug ug2 ag ag2 daily db natal
  = spec_overall_score dm ug ug2 ag ag2 daily db natal /\
  0 <= calculate_overall_score dm ug ug2 ag ag2 daily db natal <= 100.
Proof.
  split.
  - unfold calculate_overall_score, spec_overall_score.
    rewrite branch_loop_sum.
    f_equal; f_equal.
    destruct (opt_elem_eqb daily ug), (opt_elem_eqb daily ug2),
             (opt_elem_eqb daily ag), (opt_elem_eqb daily ag2);
      destruct daily, dm; simpl; ring.
  - unfold calculate_overall_score; lia.
Qed.

Example overall_score_adversarial_clamped :
  calculate_overall_score WOOD (Some WATER) (Some WOOD) (Some METAL) (Some FIRE)
    METAL 0 [6; 6; 6; 6] = 0.
Proof. reflexivity. Qed.

(** ** C1 *)

Lemma dm_interaction_swap (a b : option Element) :
  fst (_score_dm_interaction b a) = fst (_score_dm_interaction a b) /\
  snd (_score_dm_interaction b a) = flip_dm_rel (snd (_score_dm_interaction a b)).
Proof.
  destruct a as [x |], b as [y |]; try destruct x; try destruct y; split; reflexivity.
Qed.

Lemma fset_pair_eqb_swap (a b : Z) (p : Z * Z) : fset_pair_eqb b a p = fset_pair_eqb a b p.
Proof. unfold fset_pair_eqb; rewrite orb_comm; f_equal; apply andb_comm. Qed.

Lemma branch_pair_swap (a b : Z) : _score_branch_pair b a = _score_branch_pair a b.
Proof.
  unfold _score_branch_pair.
  rewrite (orb_comm (b <? 0)), (Z.eqb_sym b a).
  assert (Hh : forall l, existsb (fset_pair_eqb b a) l = existsb (fset_pair_eqb a b) l).
  { intros l; induction l as [| p l IH]; simpl; [reflexivity |].
    rewrite fset_pair_eqb_swap, IH; reflexivity. }
  assert (H3 : _is_three_harmony b a = _is_three_harmony a b).
  { unfold _is_three_harmony; induction THREE_HARMONIES_GROUPS as [| g l IH]; simpl;
      [reflexivity | rewrite andb_comm, IH; reflexivity]. }
  unfold _is_harmony, _is_harm, c_is_clash; rewrite !Hh, H3; reflexivity.
Qed.

Lemma element_complement_swap (py_round1 : Q -> Q) (ca cb : Element -> Z) :
  _score_element_complement py_round1 cb ca = _score_element_complement py_round1 ca cb.
Proof.
  unfold _score_element_complement.
  replace (map (fun e => cb e + ca e) elem_list) with (map (fun e => ca e + cb e) elem_list)
    by (apply map_ext; intros; apply Z.add_comm).
  reflexivity.
Qed.

Lemma use_god_synergy_swap (A B : CompatChart) :
  _score_use_god_synergy B A = _score_use_god_synergy A B.
Proof.
  unfold _score_use_god_synergy.
  destruct (cc_use_god A) as [ua |], (cc_use_god B) as [ub |];
    try destruct (2 <=? cc_counts B ua), (1 <=? cc_counts B ua);
    try destruct (2 <=? cc_counts A ub), (1 <=? cc_counts A ub);
    reflexivity.
Qed.

(** C1: for every pair of charts, [analyze_compatibility] gives the same
    total score (and tier, and the same five dimension scores and branch
    relationship keys) in both argument orders, for any rounding function;
    only the Day-Master key may change, between "controls" and
    "controlled". *)
Theorem compatibility_symmetric (py_round1 : Q -> Q) (A B : CompatChart) :
  let r1 := analyze_compatibility py_round1 A B in
  let r2 := analyze_compatibility py_round1 B A in
  total_score r2 = total_score r1 /\ tier r2 = tier r1 /\
  dm_score r2 = dm_score r1 /\ year_score r2 = year_score r1 /\
  day_score r2 = day_score r1 /\ elem_score r2 = elem_score r1 /\
  ug_score r2 = ug_score r1 /\
  year_rel r2 = year_rel r1 /\ day_rel r2 = day_rel r1 /\
  dm_rel r2 = flip_dm_rel (dm_rel r1).
Proof.
  intros r1 r2; subst r1 r2; unfold analyze_compatibility.
  rewrite (branch_pair_swap (cc_year_idx A)), (branch_pair_swap (cc_day_idx A)),
          (element_complement_swap py_round1 (cc_counts A)), (use_god_synergy_swap A B).
  destruct (dm_interaction_swap (cc_dm_element A) (cc_dm_element B)) as [Hs Hr].
  destruct (_score_dm_interaction (cc_dm_element A) (cc_dm_element B)) as [s r].
  destruct (_score_dm_interaction (cc_dm_element B) (cc_dm_element A)) as [s' r'].
  simpl in Hs, Hr; subst s' r'.
  destruct (_score_branch_pair (cc_year_idx A) (cc_year_idx B)) as [ys yr].
  destruct (_score_branch_pair (cc_day_idx A) (cc_day_idx B)) as [ds dr].
  simpl; repeat split.
Qed.

(** ** C8, C9: the chart entry point *)

Lemma pillar_of_total (a b : Z) :
  exists p, pillar_of (get_stem_by_index a, get_branch_by_index b) = Some p.
Proof.
  destruct (get_stem_by_index_total a) as [s [-> _]].
  destruct (get_branch_by_index_total b) as [br [-> _]].
  eexists; reflexivity.
Qed.

Lemma calculate_annual_luck_some (pillars : list (string * Pillar)) (year : Z) :
  exists a, calculate_annual_luck pillars year = Some a /\ al_year a = year.
Proof.
  unfold calculate_annual_luck, get_year_stem_branch.
  destruct (pillar_of_total ((year - GREGORIAN_EPOCH) mod 60 mod 10)
                            ((year - GREGORIAN_EPOCH) mod 60 mod 12)) as [p ->].
  eexists; split; reflexivity.
Qed.

Lemma calculate_age_periods_some (by_ : Z) (g : string) (ys : HeavenlyStem)
    (yb : EarthlyBranch) (dm : Element) :
  exists l, calculate_age_periods by_ g ys yb dm = Some l.
Proof.
  unfold calculate_age_periods; cbv zeta.
  set (d := _get_luck_direction g ys).
  generalize (List.seq 0 num_periods) as l.
  induction l as [| i l IH].
  - exists []; reflexivity.
  - destruct IH as [rest IH].
    cbn [fold_right]; rewrite IH; cbn [obind]; unfold luck_pillar.
    destruct (pillar_of_total ((STEM_INDEX ys + (Z.of_nat i + 1) * d) mod 10)
                              ((BRANCH_INDEX yb + (Z.of_nat i + 1) * d) mod 12)) as [p ->].
    cbn [obind]; eauto.
Qed.

Lemma strptime_ymd_valid (s : string) (bd : pydate) :
  strptime_ymd s = Some bd -> valid_date bd = true.
Proof.
  unfold strptime_ymd; intros H.
  destruct (ymd_regex_match s) as [[[[y m] d] rest] |]; [| discriminate].
  destruct rest as [| ? ?]; [| discriminate].
  match type of H with
  | (if valid_date ?x then _ else _) = _ => destruct (valid_date x) eqn:E; [| discriminate]
  end.
  injection H as <-; exact E.
Qed.

(** [strptime_ymd] on the inputs of a run of CPython 3.11's
    [datetime.strptime(s, "%Y-%m-%d")]: unpadded month and day fields and a
    space-padded day are accepted; a three-digit month, a day followed by
    more text, year 0, month 13, surrounding spaces, a five-digit year and
    February 30 are refused. *)
Lemma strptime_ymd_examples :
  strptime_ymd "1990-05-15" = Some (mkdate 1990 5 15) /\
  strptime_ymd "1990-5-15" = Some (mkdate 1990 5 15) /\
  strptime_ymd "1990-05- 5" = Some (mkdate 1990 5 5) /\
  strptime_ymd "1990-5-5" = Some (mkdate 1990 5 5) /\
  strptime_ymd "1990-05-5" = Some (mkdate 1990 5 5) /\
  strptime_ymd "1990-005-05" = None /\
  strptime_ymd "1990-05-35" = None /\
  strptime_ymd "1990-05-1 " = None /\
  strptime_ymd "0000-01-01" = None /\
  strptime_ymd "1990-13-01" = None /\
  strptime_ymd "1990-1-015" = None /\
  strptime_ymd " 1990-01-01" = None /\
  strptime_ymd "1990-01-01 " = None /\
  strptime_ymd "19900-1-01" = None /\
  strptime_ymd "1990-02-30" = None /\
  strptime_ymd "1990-012-1" = None.
Proof. vm_compute; repeat split. Qed.

Lemma get_day_stem_branch_some (y m d : Z) :
  1 <= m <= 12 ->
  exists dsb dp, get_day_stem_branch y m d = Some dsb /\ pillar_of dsb = Some dp.
Proof.
  intros Hm; unfold get_day_stem_branch.
  rewrite month_days_loop_before_month by exact Hm.
  set (t := year_days_loop GREGORIAN_EPOCH (Z.to_nat (y - GREGORIAN_EPOCH))
            + _days_before_month y m + d).
  destruct (pillar_of_total ((t - 1) mod 60 mod 10) ((t - 1) mod 60 mod 12)) as [p Hp].
  do 2 eexists; split; [reflexivity | exact Hp].
Qed.

Lemma valid_date_month (bd : pydate) : valid_date bd = true -> 1 <= d_month bd <= 12.
Proof.
  unfold valid_date; intros H.
  repeat rewrite andb_true_iff in H; repeat rewrite Z.leb_le in H; tauto.
Qed.

(** C8 (as stated, refuted): the same arguments give different outputs in
    2025 and in 2026, since [calculate_bazi] reads the system year for its
    annual luck. *)
Lemma calculate_bazi_depends_on_clock :
  calculate_bazi "1990-05-15" 14 "male" "en" 2025
  <> calculate_bazi "1990-05-15" 14 "male" "en" 2026.
Proof. vm_compute; congruence. Qed.

(** C8 (amended): for identical arguments, two invocations of
    [calculate_bazi] at any two system years agree on every output field
    except [annual_luck], which is the annual luck of the chart's pillars
    for the system year of the call. *)
Theorem calculate_bazi_deterministic_but_annual_luck
    (s : string) (h : Z) (g lang : string) (now1 now2 : Z) :
  drop_annual_luck (calculate_bazi s h g lang now1)
  = drop_annual_luck (calculate_bazi s h g lang now2) /\
  (forall c, calculate_bazi s h g lang now1 = Success c ->
     calculate_annual_luck [("year"%string, c_year c); ("month"%string, c_month c);
                            ("day"%string, c_day c); ("hour"%string, c_hour c)] now1
     = Some (c_annual_luck c) /\ al_year (c_annual_luck c) = now1).
Proof.
  unfold calculate_bazi; cbv zeta.
  destruct (strptime_ymd s) as [bd |]; [| split; [reflexivity | discriminate]].
  destruct (pillar_of (get_year_stem_branch (d_year bd))) as [yp |];
    cbn [obind]; [| split; [reflexivity | discriminate]].
  destruct (get_month_stem_branch (d_year bd) (d_month bd)) as [msb |];
    cbn [obind]; [| split; [reflexivity | discriminate]].
  destruct (pillar_of msb) as [mp |]; cbn [obind]; [| split; [reflexivity | discriminate]].
  destruct (get_day_stem_branch (d_year bd) (d_month bd) (d_day bd)) as [dsb |];
    cbn [obind]; [| split; [reflexivity | discriminate]].
  destruct (pillar_of dsb) as [dp |]; cbn [obind]; [| split; [reflexivity | discriminate]].
  destruct (pillar_of (get_hour_stem_branch (p_stem dp) h)) as [hp |];
    cbn [obind]; [| split; [reflexivity | discriminate]].
  destruct (calculate_annual_luck_some
              [("year"%string, yp); ("month"%string, mp); ("day"%string, dp);
               ("hour"%string, hp)] now1) as [a1 [Ha1 Hy1]].
  destruct (calculate_annual_luck_some
              [("year"%string, yp); ("month"%string, mp); ("day"%string, dp);
               ("hour"%string, hp)] now2) as [a2 [Ha2 _]].
  rewrite Ha1, Ha2; cbn [obind].
  destruct (calculate_age_periods (d_year bd) g (p_stem yp) (p_branch yp)
              (stem_element (p_stem dp))) as [aps |]; cbn [obind].
  - split; [reflexivity |].
    intros c Hc; injection Hc as <-; simpl; split; [exact Ha1 | exact Hy1].
  - split; [reflexivity | discriminate].
Qed.

Lemma year_pillar_some (y : Z) : exists yp, pillar_of (get_year_stem_branch y) = Some yp.
Proof. unfold get_year_stem_branch; cbv zeta; apply pillar_of_total. Qed.

Lemma month_pillar_some (y m : Z) :
  exists msb mp, get_month_stem_branch y m = Some msb /\ pillar_of msb = Some mp.
Proof.
  unfold get_month_stem_branch, get_year_stem_branch; cbv zeta; cbn [fst].
  destruct (get_stem_by_index_total ((y - GREGORIAN_EPOCH) mod 60 mod 10)) as [ys [-> _]].
  edestruct pillar_of_total as [mp Hmp].
  eexists _, mp; split; [reflexivity | exact Hmp].
Qed.

Lemma hour_pillar_some (d : HeavenlyStem) (h : Z) :
  exists hp, pillar_of (get_hour_stem_branch d h) = Some hp.
Proof. unfold get_hour_stem_branch; cbv zeta; apply pillar_of_total. Qed.

Lemma hour_stem_branch_mod24 (d : HeavenlyStem) (h : Z) :
  get_hour_stem_branch d (h mod 24) = get_hour_stem_branch d h.
Proof.
  unfold get_hour_stem_branch, hour_branch_index; cbv zeta.
  rewrite Z.mod_mod by lia; reflexivity.
Qed.

Lemma luck_direction_not_male (g : string) (ys : HeavenlyStem) :
  str_lower g <> "male"%string -> _get_luck_direction g ys = _get_luck_direction "female" ys.
Proof.
  intros Hg; unfold _get_luck_direction; cbv zeta.
  destruct (String.eqb_spec (str_lower g) "male"); [contradiction |].
  reflexivity.
Qed.

Lemma calculate_bazi_success (s : string) (h : Z) (g lang : string) (now : Z) (bd : pydate) :
  strptime_ymd s = Some bd ->
  exists c, calculate_bazi s h g lang now = Success c /\
            in_birth_hour c = h /\ in_gender c = g.
Proof.
  intros Hs; unfold calculate_bazi; rewrite Hs; cbv zeta.
  destruct (year_pillar_some (d_year bd)) as [yp E1]; rewrite E1; cbn [obind].
  destruct (month_pillar_some (d_year bd) (d_month bd)) as (msb & mp & E2 & E3).
  rewrite E2; cbn [obind]; rewrite E3; cbn [obind].
  destruct (get_day_stem_branch_some (d_year bd) (d_month bd) (d_day bd)
              (valid_date_month bd (strptime_ymd_valid s bd Hs))) as (dsb & dp & E4 & E5).
  rewrite E4; cbn [obind]; rewrite E5; cbn [obind].
  destruct (hour_pillar_some (p_stem dp) h) as [hp E6]; rewrite E6; cbn [obind].
  edestruct calculate_annual_luck_some as [a [E7 _]]; rewrite E7; cbn [obind].
  edestruct calculate_age_periods_some as [aps E8]; rewrite E8; cbn [obind].
  eexists; split; [reflexivity | split; reflexivity].
Qed.

Lemma calculate_bazi_success_inv (s : string) (h : Z) (g lang : string) (now : Z)
    (c : BaziChart) :
  calculate_bazi s h g lang now = Success c ->
  exists bd dsb,
    strptime_ymd s = Some bd /\
    pillar_of (get_year_stem_branch (d_year bd)) = Some (c_year c) /\
    get_day_stem_branch (d_year bd) (d_month bd) (d_day bd) = Some dsb /\
    pillar_of dsb = Some (c_day c) /\
    pillar_of (get_hour_stem_branch (p_stem (c_day c)) h) = Some (c_hour c) /\
    calculate_age_periods (d_year bd) g (p_stem (c_year c)) (p_branch (c_year c))
      (stem_element (p_stem (c_day c))) = Some (c_age_periods c).
Proof.
  unfold calculate_bazi; cbv zeta.
  destruct (strptime_ymd s) as [bd |]; [| discriminate].
  destruct (pillar_of (get_year_stem_branch (d_year bd))) as [yp |] eqn:E1;
    cbn [obind]; [| discriminate].
  destruct (get_month_stem_branch (d_year bd) (d_month bd)) as [msb |];
    cbn [obind]; [| discriminate].
  destruct (pillar_of msb) as [mp |]; cbn [obind]; [| discriminate].
  destruct (get_day_stem_branch (d_year bd) (d_month bd) (d_day bd)) as [dsb |] eqn:E4;
    cbn [obind]; [| discriminate].
  destruct (pillar_of dsb) as [dp |] eqn:E5; cbn [obind]; [| discriminate].
  destruct (pillar_of (get_hour_stem_branch (p_stem dp) h)) as [hp |] eqn:E6;
    cbn [obind]; [| discriminate].
  edestruct calculate_annual_luck_some as [a [E7 _]]; rewrite E7; cbn [obind].
  destruct (calculate_age_periods (d_year bd) g (p_stem yp) (p_branch yp)
              (stem_element (p_stem dp))) as [aps |] eqn:E8; cbn [obind]; [| discriminate].
  intros Hc; injection Hc as <-; simpl.
  exists bd, dsb; repeat split; assumption.
Qed.

(** C9 (as stated, refuted): the engine, called directly with hour 25 and
    gender "other", returns an ordinary success chart rather than failing. *)
Lemma engine_accepts_bad_hour_and_gender :
  match calculate_bazi "1990-05-15" 25 "other" "en" 2026 with
  | Success c => in_birth_hour c = 25 /\ in_gender c = "other"%string /\
                 c_hour c = {| p_stem := GENG; p_branch := CHOU |}
  | Failure _ => False
  end.
Proof. vm_compute; repeat split; reflexivity. Qed.

(** C9 (amended): [validate_birth_input] rejects every bad date string, every
    hour outside 0-23 and every gender other than "male"/"female" with an
    error; the engine [calculate_bazi] answers an unparsable date string with
    [Failure InvalidInput], but for a parsable date it returns a success chart
    for every integer hour and every gender, bucketing the hour by
    [hour mod 24] and treating every gender whose lower-case form is not
    "male" as "female" for the luck periods. *)
Theorem validation_at_boundary_engine_total
    (s : string) (h : Z) (g lang cal : string) (now : Z) (today : pydate) :
  ((strptime_ymd s = None \/ h < 0 \/ 23 < h \/
    (g <> "male"%string /\ g <> "female"%string)) ->
   exists err, validate_birth_input s (Some h) g cal today = Some err) /\
  (strptime_ymd s = None -> calculate_bazi s h g lang now = Failure InvalidInput) /\
  (forall bd, strptime_ymd s = Some bd ->
     exists c, calculate_bazi s h g lang now = Success c /\
               in_birth_hour c = h /\ in_gender c = g) /\
  (forall c c', calculate_bazi s h g lang now = Success c ->
     calculate_bazi s (h mod 24) g lang now = Success c' -> c_hour c = c_hour c') /\
  (forall c c', str_lower g <> "male"%string ->
     calculate_bazi s h g lang now = Success c ->
     calculate_bazi s h "female" lang now = Success c' ->
     c_age_periods c = c_age_periods c').
Proof.
  split; [| split; [| split; [| split]]].
  - intros Hbad; unfold validate_birth_input.
    destruct (strptime_ymd s) as [bd |]; [| eauto].
    destruct ((d_year bd <? 1900) || (2100 <? d_year bd)); [eauto |].
    destruct (String.eqb cal "solar" && (toordinal today <? toordinal bd)); [eauto |].
    destruct (negb ((0 <=? h) && (h <=? 23))) eqn:Eh; [eauto |].
    apply negb_false_iff, andb_true_iff in Eh; destruct Eh as [E1 E2].
    apply Z.leb_le in E1; apply Z.leb_le in E2.
    destruct Hbad as [Hn | [Hl | [Hu | [Hm Hf]]]]; [discriminate | lia | lia |].
    apply String.eqb_neq in Hm; apply String.eqb_neq in Hf.
    rewrite Hm, Hf; simpl; eauto.
  - intros Hs; unfold calculate_bazi; rewrite Hs; reflexivity.
  - intros bd Hs; apply calculate_bazi_success with bd; exact Hs.
  - intros c c' Hc Hc'.
    destruct (calculate_bazi_success_inv _ _ _ _ _ _ Hc)
      as (bd & dsb & S1 & _ & D1 & D2 & H1 & _).
    destruct (calculate_bazi_success_inv _ _ _ _ _ _ Hc')
      as (bd' & dsb' & S1' & _ & D1' & D2' & H1' & _).
    rewrite S1 in S1'; injection S1' as <-.
    rewrite D1 in D1'; injection D1' as <-.
    rewrite D2 in D2'; injection D2' as Hd.
    rewrite <- Hd, hour_stem_branch_mod24, H1 in H1'.
    injection H1' as H1'; exact H1'.
  - intros c c' Hg Hc Hc'.
    destruct (calculate_bazi_success_inv _ _ _ _ _ _ Hc)
      as (bd & dsb & S1 & Y1 & D1 & D2 & _ & A1).
    destruct (calculate_bazi_success_inv _ _ _ _ _ _ Hc')
      as (bd' & dsb' & S1' & Y1' & D1' & D2' & _ & A1').
    rewrite S1 in S1'; injection S1' as <-.
    rewrite D1 in D1'; injection D1' as <-.
    rewrite D2 in D2'; injection D2' as Hd.
    rewrite Y1 in Y1'; injection Y1' as Hy.
    rewrite <- Hd, <- Hy in A1'.
    unfold calculate_age_periods in A1, A1'; cbv zeta in A1, A1'.
    rewrite (luck_direction_not_male g _ Hg), A1' in A1.
    injection A1 as A1; symmetry; exact A1.
Qed.

(** ** Further properties of the engine *)

Lemma range12 (a : Z) : 0 <= a <= 11 ->
  a = 0 \/ a = 1 \/ a = 2 \/ a = 3 \/ a = 4 \/ a = 5 \/ a = 6 \/ a = 7 \/
  a = 8 \/ a = 9 \/ a = 10 \/ a = 11.
Proof. lia. Qed.

Ltac split_eqs :=
  repeat match goal with H : _ = _ \/ _ |- _ => destruct H as [H | H] end; subst.

Ltac close_bool_iffs :=
  repeat split; intros; try reflexivity; try discriminate; try lia.

Lemma pair_in_fset (a b : Z) (l : list (Z * Z)) :
  Forall (fun p => fst p < snd p) l ->
  pair_in (_normalize_clash_pair a b) l = existsb (fset_pair_eqb a b) l.
Proof.
  induction 1 as [| [x y] l Hxy _ IH]; [reflexivity |].
  simpl in *; rewrite IH; f_equal.
  unfold pair_eqb, fset_pair_eqb, _normalize_clash_pair; simpl.
  destruct (Z.eqb_spec (Z.min a b) x), (Z.eqb_spec (Z.max a b) y),
           (Z.eqb_spec a x), (Z.eqb_spec b y), (Z.eqb_spec a y), (Z.eqb_spec b x);
    simpl; try reflexivity; lia.
Qed.

(** X1: annual_luck.py's Six Clashes and Six Combinations agree, for every
    pair of integers, with compatibility.py's Six Clashes and Six Harmonies;
    on branch indices 0..11 two branches clash exactly when they are 6 apart
    and combine exactly when their indices sum to 1 modulo 12, so no pair
    both clashes and combines. *)
Theorem clash_combination_closed_form (a b : Z) :
  _is_clash a b = c_is_clash a b /\ _is_combination a b = _is_harmony a b /\
  (0 <= a <= 11 -> 0 <= b <= 11 ->
   (_is_clash a b = true <-> (a - b) mod 12 = 6) /\
   (_is_combination a b = true <-> (a + b) mod 12 = 1) /\
   _is_clash a b && _is_combination a b = false).
Proof.
  split; [| split].
  - apply pair_in_fset; repeat constructor; simpl; lia.
  - apply pair_in_fset; repeat constructor; simpl; lia.
  - intros Ha Hb; apply range12 in Ha; apply range12 in Hb; split_eqs;
      vm_compute; close_bool_iffs.
Qed.

(** X2: on branch indices 0..11, compatibility.py's tables have closed
    forms: Six Harmony iff the indices sum to 1 mod 12, Three Harmony iff
    they differ by a multiple of 4, Six Harm iff they sum to 7 mod 12, Six
    Clash iff they differ by 6 mod 12; for two different branches at most
    one of the four holds, so the order of the tests in
    [_score_branch_pair] never matters. *)
Theorem branch_tables_closed_form (a b : Z) (Ha : 0 <= a <= 11) (Hb : 0 <= b <= 11) :
  (_is_harmony a b = true <-> (a + b) mod 12 = 1) /\
  (_is_three_harmony a b = true <-> (a - b) mod 4 = 0) /\
  (_is_harm a b = true <-> (a + b) mod 12 = 7) /\
  (c_is_clash a b = true <-> (a - b) mod 12 = 6) /\
  (a <> b -> (count_true [_is_harmony a b; _is_three_harmony a b;
                          _is_harm a b; c_is_clash a b] <= 1)%nat).
Proof.
  apply range12 in Ha; apply range12 in Hb; split_eqs;
    vm_compute; close_bool_iffs; try (exfalso; congruence).
Qed.

Lemma branch_tables_closed_form_witness :
  (0 <= 2 <= 11 /\ 0 <= 6 <= 11) /\
  ((_is_harmony 2 6 = true <-> (2 + 6) mod 12 = 1) /\
   (_is_three_harmony 2 6 = true <-> (2 - 6) mod 4 = 0) /\
   (_is_harm 2 6 = true <-> (2 + 6) mod 12 = 7) /\
   (c_is_clash 2 6 = true <-> (2 - 6) mod 12 = 6) /\
   (2 <> 6 -> (count_true [_is_harmony 2 6; _is_three_harmony 2 6;
                           _is_harm 2 6; c_is_clash 2 6] <= 1)%nat)).
Proof.
  split; [split; lia |].
  apply (branch_tables_closed_form 2 6); lia.
Defined.

Lemma get_stem_by_index_inv (i : Z) (s : HeavenlyStem) :
  get_stem_by_index i = Some s -> STEM_INDEX s = i mod 10.
Proof.
  intros H; destruct (get_stem_by_index_total i) as [s' [H' Hi]].
  rewrite H in H'; injection H' as <-; exact Hi.
Qed.

Lemma get_branch_by_index_inv (i : Z) (b : EarthlyBranch) :
  get_branch_by_index i = Some b -> BRANCH_INDEX b = i mod 12.
Proof.
  intros H; destruct (get_branch_by_index_total i) as [b' [H' Hi]].
  rewrite H in H'; injection H' as <-; exact Hi.
Qed.

Lemma stem_yin_yang_even (s : HeavenlyStem) :
  stem_yin_yang s = if Z.even (STEM_INDEX s) then Yang else Yin.
Proof. destruct s; reflexivity. Qed.

Lemma branch_yin_yang_even (b : EarthlyBranch) :
  branch_yin_yang b = if Z.even (BRANCH_INDEX b) then Yang else Yin.
Proof. destruct b; reflexivity. Qed.

Lemma even_mod_even (i k : Z) : 0 < k -> Z.even k = true -> Z.even (i mod k) = Z.even i.
Proof.
  intros Hk Hev.
  rewrite (Z.mod_eq i k) by lia.
  rewrite Z.even_sub, Z.even_mul, Hev; simpl.
  destruct (Z.even i); reflexivity.
Qed.

Lemma stem_parity (i : Z) (s : HeavenlyStem) :
  get_stem_by_index i = Some s -> stem_yin_yang s = if Z.even i then Yang else Yin.
Proof.
  intros H; rewrite stem_yin_yang_even, (get_stem_by_index_inv i s H),
    even_mod_even by (reflexivity || lia); reflexivity.
Qed.

Lemma branch_parity (i : Z) (b : EarthlyBranch) :
  get_branch_by_index i = Some b -> branch_yin_yang b = if Z.even i then Yang else Yin.
Proof.
  intros H; rewrite branch_yin_yang_even, (get_branch_by_index_inv i b H),
    even_mod_even by (reflexivity || lia); reflexivity.
Qed.

(** X3: the year pillar and the day pillar always pair a stem and a branch
    of the same polarity (Yang with Yang, Yin with Yin), while the month
    pillar of [get_month_stem_branch] always pairs a stem and a branch of
    opposite polarity, for every year and every integer month. *)
Theorem pillar_polarity (year month day : Z) :
  (forall s b, get_year_stem_branch year = (Some s, Some b) ->
     stem_yin_yang s = branch_yin_yang b) /\
  (forall s b, get_month_stem_branch year month = Some (Some s, Some b) ->
     stem_yin_yang s <> branch_yin_yang b) /\
  (forall s b, get_day_stem_branch year month day = Some (Some s, Some b) ->
     stem_yin_yang s = branch_yin_yang b).
Proof.
  split; [| split].
  - intros s b H; unfold get_year_stem_branch in H; injection H as Hs Hb.
    rewrite (stem_parity _ _ Hs), (branch_parity _ _ Hb),
      !even_mod_even by (reflexivity || lia); reflexivity.
  - intros s b H; unfold get_month_stem_branch in H.
    destruct (fst (get_year_stem_branch year)) as [ys |]; [| discriminate].
    injection H as Hs Hb.
    rewrite (stem_parity _ _ Hs), (branch_parity _ _ Hb),
      !even_mod_even by (reflexivity || lia).
    rewrite !Z.even_add, even_mod_even, Z.even_sub, Z.even_mul, orb_true_r by (reflexivity || lia).
    destruct (Z.even month); discriminate.
  - intros s b H; unfold get_day_stem_branch in H.
    destruct (month_days_loop year 1 (Z.to_nat (month - 1))); [| discriminate].
    injection H as Hs Hb.
    rewrite (stem_parity _ _ Hs), (branch_parity _ _ Hb),
      !even_mod_even by (reflexivity || lia); reflexivity.
Qed.

(** X4: [get_month_stem_branch] repeats every 5 years and every 12 months:
    the month pillar of a year is that of the year five years earlier, and
    month [m + 12] gets the pillar of month [m]. *)
Theorem month_pillar_periodic (year month : Z) :
  get_month_stem_branch (year + 5) month = get_month_stem_branch year month /\
  get_month_stem_branch year (month + 12) = get_month_stem_branch year month.
Proof.
  split.
  - unfold get_month_stem_branch, get_year_stem_branch; cbn [fst].
    destruct (get_stem_by_index_total ((year + 5 - GREGORIAN_EPOCH) mod 60 mod 10))
      as [s1 [E1 I1]].
    destruct (get_stem_by_index_total ((year - GREGORIAN_EPOCH) mod 60 mod 10))
      as [s0 [E0 I0]].
    rewrite E1, E0, I1, I0; do 3 f_equal.
    unfold GREGORIAN_EPOCH; Z.div_mod_to_equations; lia.
  - unfold get_month_stem_branch.
    replace (month + 12 - 1) with ((month - 1) + 1 * 12) by lia.
    replace (month + 12 + 10) with ((month + 10) + 1 * 12) by lia.
    rewrite !Z.mod_add by lia; reflexivity.
Qed.

Lemma hour_branch_index_closed (h : Z) : hour_branch_index h = ((h + 1) mod 24) / 2.
Proof.
  unfold hour_branch_index; cbv zeta.
  rewrite <- Z.add_mod_idemp_l by lia.
  assert (Hr : 0 <= h mod 24 < 24) by (apply Z.mod_pos_bound; lia).
  set (r := h mod 24) in *; clearbody r.
  destruct (Z.leb_spec 23 r), (Z.ltb_spec r 1); simpl;
    try (Z.div_mod_to_equations; lia).
  destruct (Z.ltb_spec 11 ((r + 1) / 2)); Z.div_mod_to_equations; lia.
Qed.

(** X5: the hour branch of [get_hour_stem_branch] is
    [((hour + 1) mod 24) div 2] for every integer hour (the cap at index 11
    never applies), and the hour stem index is
    [(day_stem_index div 2) * 2 + ((hour + 1) mod 24) div 4]: the stem
    changes only every second branch, and two day stems with the same
    [index div 2] (JIA and YI, BING and DING, ...) give the same hour
    pillar at every hour. *)
Theorem hour_pillar_closed_form (d : HeavenlyStem) (h : Z) :
  hour_branch_index h = ((h + 1) mod 24) / 2 /\
  get_hour_stem_branch d h =
    (get_stem_by_index ((STEM_INDEX d / 2) * 2 + ((h + 1) mod 24) / 4),
     get_branch_by_index (((h + 1) mod 24) / 2)) /\
  (forall d', STEM_INDEX d' / 2 = STEM_INDEX d / 2 ->
     get_hour_stem_branch d' h = get_hour_stem_branch d h).
Proof.
  assert (Hc : forall d0, get_hour_stem_branch d0 h =
            (get_stem_by_index ((STEM_INDEX d0 / 2) * 2 + ((h + 1) mod 24) / 4),
             get_branch_by_index (((h + 1) mod 24) / 2))).
  { intros d0; unfold get_hour_stem_branch; cbv zeta.
    rewrite hour_branch_index_closed, Z.div_div by lia.
    unfold get_stem_by_index; rewrite Z.mod_mod by lia; reflexivity. }
  split; [apply hour_branch_index_closed | split; [apply Hc |]].
  intros d' Hd; rewrite !Hc, Hd; reflexivity.
Qed.

(** X6: [get_days_in_month] gives 28 to 31 days for months 1..12, with
    February 29 days exactly in leap years, and the twelve months add up to
    366 days in a leap year and 365 otherwise; out of range it follows
    Python list indexing: month 0 reads December's 31 (index -1), and it
    raises ([None]) exactly for months below -11 or above 12. *)
Theorem days_in_month_table (year : Z) :
  (forall month, 1 <= month <= 12 ->
     exists d, get_days_in_month year month = Some d /\ 28 <= d <= 31) /\
  get_days_in_month year 2 = Some (if is_leap_year year then 29 else 28) /\
  month_days_loop year 1 12 = Some (if is_leap_year year then 366 else 365) /\
  get_days_in_month year 0 = Some 31 /\
  (forall month, get_days_in_month year month = None <-> month < -11 \/ 12 < month).
Proof.
  split; [| split; [| split; [| split]]].
  - intros m Hm.
    assert (Hm' : m = 1 \/ m = 2 \/ m = 3 \/ m = 4 \/ m = 5 \/ m = 6 \/ m = 7 \/
                  m = 8 \/ m = 9 \/ m = 10 \/ m = 11 \/ m = 12) by lia.
    clear Hm; split_eqs; unfold get_days_in_month; simpl;
      try (destruct (is_leap_year year)); eexists; split; try reflexivity; lia.
  - unfold get_days_in_month; simpl; destruct (is_leap_year year); reflexivity.
  - simpl; unfold get_days_in_month; simpl; destruct (is_leap_year year); reflexivity.
  - reflexivity.
  - intros m; unfold get_days_in_month.
    destruct ((m =? 2) && is_leap_year year) eqn:E.
    + apply andb_true_iff in E; destruct E as [E _]; apply Z.eqb_eq in E.
      split; [discriminate | lia].
    + unfold py_index; simpl List.length.
      destruct (Z.leb_spec 0 (m - 1)).
      * rewrite nth_error_None; simpl List.length; lia.
      * destruct (Z.leb_spec (- Z.of_nat 12) (m - 1)).
        -- rewrite nth_error_None; simpl List.length; lia.
        -- split; [intros; lia | reflexivity].
Qed.

(** X7: for a day-master element and the index of a month branch,
    [get_seasonal_strength] is "strong" exactly when the branch has the
    day master's own element, and "weak" exactly when Wood meets a Metal
    branch, Metal a Wood branch, Fire a Water branch or Water a Fire branch
    (an Earth day master is never weak); an index outside 0..11 or an
    unknown element gives "neutral". *)
Theorem seasonal_strength_by_branch_element (e : Element) (b : EarthlyBranch) :
  (get_seasonal_strength (Some e) (BRANCH_INDEX b) = ss_strong <-> branch_element b = e) /\
  (get_seasonal_strength (Some e) (BRANCH_INDEX b) = ss_weak <->
     (e = WOOD /\ branch_element b = METAL) \/ (e = METAL /\ branch_element b = WOOD) \/
     (e = FIRE /\ branch_element b = WATER) \/ (e = WATER /\ branch_element b = FIRE)) /\
  (forall i, i < 0 \/ 11 < i -> get_seasonal_strength (Some e) i = ss_neutral) /\
  (forall i, get_seasonal_strength None i = ss_neutral).
Proof.
  split; [| split; [| split]].
  - destruct e, b; vm_compute; split; intros; congruence.
  - destruct e, b; vm_compute; split; intros H;
      try discriminate; try reflexivity;
      repeat (destruct H as [H | H]); destruct H; try discriminate; auto.
  - intros i Hi; destruct e;
      unfold get_seasonal_strength, zmem, ELEMENT_SEASON_BRANCHES, ELEMENT_OPPOSITE_BRANCHES;
      cbn [existsb];
      repeat match goal with |- context [i =? ?k] =>
        destruct (Z.eqb_spec i k); [lia |] end; reflexivity.
  - reflexivity.
Qed.

(** X8: [_get_peach_blossom_branch] of daily_forecast.py is
    [9 - 3 * (i mod 4)] on the branch indices 0..11 and -1 on every other
    integer, and it agrees with the [TAOHUA_MAP] table of deities.py on
    every branch. *)
Theorem peach_blossom_closed_form :
  (forall i, 0 <= i <= 11 -> _get_peach_blossom_branch i = 9 - 3 * (i mod 4)) /\
  (forall i, i < 0 \/ 11 < i -> _get_peach_blossom_branch i = -1) /\
  (forall b, _get_peach_blossom_branch (BRANCH_INDEX b) = BRANCH_INDEX (TAOHUA_MAP b)).
Proof.
  split; [| split].
  - intros i Hi; apply range12 in Hi; split_eqs; reflexivity.
  - intros i Hi; unfold _get_peach_blossom_branch, zmem, _PEACH_BLOSSOM;
    cbn [List.find existsb fst].
    repeat match goal with |- context [i =? ?k] =>
      destruct (Z.eqb_spec i k); [lia |] end; reflexivity.
  - intros b; destruct b; reflexivity.
Qed.

(** X9: [_derive_life_domains] never needs its clamp: every domain is
    already between 0 and 3, and the emphasis over the five domains adds up
    to 3 for a known element (0 for an unknown one) plus 5 when the
    relationship is "generates", 2 when it is "destroys" or "same" and 0
    for "none". *)
Theorem life_domains_unclamped (e : option Element) (rel : Relationship) :
  let d := _derive_life_domains e rel in
  0 <= ld_career d <= 3 /\ 0 <= ld_wealth d <= 3 /\ 0 <= ld_relationships d <= 3 /\
  0 <= ld_health d <= 3 /\ 0 <= ld_learning d <= 3 /\
  ld_career d + ld_wealth d + ld_relationships d + ld_health d + ld_learning d =
    (match e with Some _ => 3 | None => 0 end) +
    (match rel with R_generates => 5 | R_destroys | R_same => 2 | R_none => 0 end).
Proof.
  destruct e as [[] |], rel; vm_compute; repeat split; discriminate.
Qed.

Lemma luck_score_range (a b : Element) : luck_score a b <> 0 /\ -2 <= luck_score a b <= 2.
Proof. destruct a, b; vm_compute; split; congruence || (split; discriminate). Qed.

Lemma age_periods_fold (birth_year : Z) (dir : Z) (ys : HeavenlyStem) (yb : EarthlyBranch)
    (dm : Element) (n s : nat) (l : list AgePeriod) :
  fold_right
    (fun i acc =>
       let* rest := acc in
       let* lp := pillar_of (luck_pillar dir ys yb i) in
       let start_age := 8 + Z.of_nat i * 10 in
       let end_age := start_age + 9 in
       let luck_element := stem_element (p_stem lp) in
       Some ({| ap_start_age := start_age; ap_end_age := end_age;
                ap_start_year := birth_year + start_age; ap_end_year := birth_year + end_age;
                ap_luck_pillar := lp;
                ap_relationship := get_element_relationships luck_element dm;
                ap_luck_score := luck_score luck_element dm |} :: rest))
    (Some []) (List.seq s n) = Some l ->
  List.length l = n /\
  forall i p, nth_error l i = Some p ->
    ap_start_age p = 8 + Z.of_nat (s + i) * 10 /\
    ap_end_age p = ap_start_age p + 9 /\
    ap_start_year p = birth_year + ap_start_age p /\
    ap_end_year p = birth_year + ap_end_age p /\
    pillar_of (luck_pillar dir ys yb (s + i)) = Some (ap_luck_pillar p) /\
    ap_luck_score p = luck_score (stem_element (p_stem (ap_luck_pillar p))) dm.
Proof.
  revert s l; induction n as [| n IH]; intros s l H.
  - injection H as <-; split; [reflexivity |]; intros [|]; discriminate.
  - cbn [List.seq fold_right] in H.
    match type of H with obind ?o _ = _ => destruct o as [rest |] eqn:Erest end;
      [| discriminate].
    cbn [obind] in H.
    destruct (pillar_of (luck_pillar dir ys yb s)) as [lp |] eqn:Elp; [| discriminate].
    cbn [obind] in H; injection H as <-.
    destruct (IH (S s) rest Erest) as [Hlen Hnth].
    split; [simpl; rewrite Hlen; reflexivity |].
    intros [| i] p Hp.
    + injection Hp as <-; rewrite Nat.add_0_r; repeat split; first [exact Elp | reflexivity].
    + simpl in Hp; destruct (Hnth i p Hp) as (A & B & C & D & E & F).
      rewrite <- Nat.add_succ_comm; repeat split; assumption.
Qed.

(** X10: [calculate_age_periods] returns 8 periods; period [i] (from 0)
    covers ages [8 + 10 i] to [17 + 10 i] and the matching birth-year
    offsets, its luck pillar is [i + 1] steps from the year pillar in the
    luck direction (stem index modulo 10, branch index modulo 12), and its
    luck score is one of -2, -1, 1, 2 (never 0, so the "neutral" quality is
    never produced). *)
Theorem age_periods_structure (birth_year : Z) (gender : string) (ys : HeavenlyStem)
    (yb : EarthlyBranch) (dm : Element) (l : list AgePeriod)
    (H : calculate_age_periods birth_year gender ys yb dm = Some l) :
  List.length l = 8%nat /\
  forall i p, nth_error l i = Some p ->
    let d := _get_luck_direction gender ys in
    ap_start_age p = 8 + 10 * Z.of_nat i /\ ap_end_age p = ap_start_age p + 9 /\
    ap_start_year p = birth_year + ap_start_age p /\
    ap_end_year p = birth_year + ap_end_age p /\
    STEM_INDEX (p_stem (ap_luck_pillar p)) = (STEM_INDEX ys + (Z.of_nat i + 1) * d) mod 10 /\
    BRANCH_INDEX (p_branch (ap_luck_pillar p)) = (BRANCH_INDEX yb + (Z.of_nat i + 1) * d) mod 12 /\
    ap_luck_score p <> 0 /\ -2 <= ap_luck_score p <= 2.
Proof.
  unfold calculate_age_periods in H; cbv zeta in H.
  destruct (age_periods_fold _ _ _ _ _ _ _ _ H) as [Hlen Hnth].
  split; [exact Hlen |].
  intros i p Hp; cbv zeta.
  destruct (Hnth i p Hp) as (A & B & C & D & E & F); cbn [Nat.add] in A, E.
  unfold luck_pillar, pillar_of in E.
  destruct (get_stem_by_index _) as [s |] eqn:Es; [| discriminate].
  destruct (get_branch_by_index _) as [b |] eqn:Eb; [| discriminate].
  injection E as E; rewrite F, <- E; cbn [p_stem p_branch].
  apply get_stem_by_index_inv in Es; apply get_branch_by_index_inv in Eb.
  rewrite Z.mod_mod in Es, Eb by lia.
  destruct (luck_score_range (stem_element s) dm) as [N R].
  repeat split; try lia; assumption.
Qed.

Lemma age_periods_structure_witness :
  exists l, calculate_age_periods 1990 "male" GENG WU_BRANCH METAL = Some l /\
            List.length l = 8%nat.
Proof.
  eexists; split; [reflexivity |].
  exact (proj1 (age_periods_structure 1990 "male" GENG WU_BRANCH METAL _ eq_refl)).
Defined.


Lemma count_elements_step (f : Element -> Z) (a : string) :
  (if existsb (fun elem => String.eqb (element_value elem) a) all_elements
   then counts_incr a (map (fun e => (element_value e, f e)) all_elements)
   else map (fun e => (element_value e, f e)) all_elements)
  = map (fun e => (element_value e,
                   f e + (if String.eqb (element_value e) a then 1 else 0))) all_elements.
Proof.
  unfold counts_incr; cbn [existsb map all_elements element_value fst snd].
  destruct (String.eqb "Wood" a), (String.eqb "Fire" a), (String.eqb "Earth" a),
    (String.eqb "Metal" a), (String.eqb "Water" a);
    cbn [orb]; rewrite ?Z.add_0_r; reflexivity.
Qed.

Lemma count_elements_fold (l : list string) (f : Element -> Z) :
  fold_left
    (fun counts elem_str =>
       if existsb (fun elem => String.eqb (element_value elem) elem_str) all_elements
       then counts_incr elem_str counts
       else counts)
    l (map (fun e => (element_value e, f e)) all_elements)
  = map (fun e => (element_value e, f e + str_occ (element_value e) l)) all_elements.
Proof.
  revert f; induction l as [| a l IH]; intro f; cbn [fold_left].
  - unfold str_occ; cbn; rewrite !Z.add_0_r; reflexivity.
  - rewrite count_elements_step, IH.
    apply map_ext; intro e; f_equal.
    unfold str_occ, zsum; cbn [map fold_right]; rewrite (String.eqb_sym a); lia.
Qed.

Lemma count_elements_spec (l : list string) :
  count_elements l = map (fun e => (element_value e, str_occ (element_value e) l)) all_elements.
Proof.
  unfold count_elements.
  rewrite (count_elements_fold l (fun _ => 0)); reflexivity.
Qed.

Lemma str_occ_nonneg (s : string) (l : list string) : 0 <= str_occ s l.
Proof.
  unfold str_occ, zsum; induction l as [| a l IH]; cbn; [lia |].
  destruct (String.eqb a s); lia.
Qed.

Lemma str_occ_cons (s x : string) (l : list string) :
  str_occ s (x :: l) = (if String.eqb x s then 1 else 0) + str_occ s l.
Proof. reflexivity. Qed.

Lemma element_value_eqb (e e' : Element) :
  String.eqb (element_value e) (element_value e') = Element_eqb e e'.
Proof. destruct e, e'; reflexivity. Qed.

Lemma str_occ_elements_sum (l : list Element) :
  zsum (map (fun e => str_occ (element_value e) (map element_value l)) all_elements)
  = Z.of_nat (List.length l).
Proof.
  induction l as [| a l IH]; [reflexivity |].
  revert IH; unfold zsum; cbn [map fold_right all_elements List.length].
  rewrite !str_occ_cons, !element_value_eqb, Nat2Z.inj_succ.
  destruct a; cbn [Element_eqb]; lia.
Qed.

Lemma in_r9 (c : Z) : 0 <= c <= 8 -> In c r9.
Proof.
  intro H; assert (c = 0 \/ c = 1 \/ c = 2 \/ c = 3 \/ c = 4 \/ c = 5 \/ c = 6 \/ c = 7 \/ c = 8)
    as Hc by lia.
  unfold r9; cbn; lia.
Qed.

Lemma check_balance_of_eight_ok : check_balance_of_eight = true.
Proof. vm_compute; reflexivity. Qed.

Lemma balance_of_eight_vec (c1 c2 c3 c4 c5 : Z) :
  0 <= c1 -> 0 <= c2 -> 0 <= c3 -> 0 <= c4 -> 0 <= c5 -> c1 + c2 + c3 + c4 + c5 = 8 ->
  balance_of_eight_b (get_element_balance (counts_vec c1 c2 c3 c4 c5)) = true.
Proof.
  intros H1 H2 H3 H4 H5 Hs.
  pose proof check_balance_of_eight_ok as C; unfold check_balance_of_eight in C.
  rewrite forallb_forall in C; specialize (C c1 (in_r9 c1 ltac:(lia))).
  rewrite forallb_forall in C; specialize (C c2 (in_r9 c2 ltac:(lia))).
  rewrite forallb_forall in C; specialize (C c3 (in_r9 c3 ltac:(lia))).
  rewrite forallb_forall in C; specialize (C c4 (in_r9 c4 ltac:(lia))).
  rewrite forallb_forall in C; specialize (C c5 (in_r9 c5 ltac:(lia))).
  rewrite (proj2 (Z.eqb_eq _ _) Hs) in C; exact C.
Qed.

Lemma element_balance_recommendation (counts : list (string * Z)) :
  eb_deficient (get_element_balance counts) <> [] ->
  eb_recommendations (get_element_balance counts) = rec_missing (eb_deficient (get_element_balance counts)).
Proof.
  unfold get_element_balance; destruct (_ =? 0); cbn [eb_deficient eb_recommendations].
  - intro H; contradiction.
  - destruct (map fst _); [intro H; contradiction | reflexivity].
Qed.

(** X11: for any 8 element names (the [all_elements] of a chart),
    [get_element_balance (count_elements ...)] has total 8, its balance is
    "weak" or "neutral" (never "strong"), at least one element is deficient,
    and the recommendation is always the "missing or weak" text: the
    "balanced distribution" and "excess" texts are never produced. *)
Theorem element_balance_of_eight (l : list Element) (H : List.length l = 8%nat) :
  let r := get_element_balance (count_elements (map element_value l)) in
  eb_total r = 8 /\ (eb_balance r = bal_weak \/ eb_balance r = bal_neutral) /\
  eb_deficient r <> [] /\ eb_recommendations r = rec_missing (eb_deficient r).
Proof.
  intro r.
  assert (B : balance_of_eight_b r = true).
  { unfold r; rewrite count_elements_spec.
    pose proof (str_occ_elements_sum l) as S; rewrite H in S.
    revert S; cbn [map all_elements zsum fold_right element_value]; intro S.
    apply balance_of_eight_vec; try apply str_occ_nonneg; simpl in S; lia. }
  unfold balance_of_eight_b in B.
  apply andb_prop in B as [B D]; apply andb_prop in B as [T W].
  assert (ND : eb_deficient r <> []) by (destruct (eb_deficient r); [discriminate | discriminate]).
  split; [apply Z.eqb_eq; exact T |].
  split; [destruct (eb_balance r); auto; discriminate |].
  split; [exact ND |].
  apply element_balance_recommendation; exact ND.
Qed.

Lemma element_balance_of_eight_witness :
  List.length [WOOD; WOOD; WOOD; FIRE; FIRE; EARTH; METAL; WATER] = 8%nat /\
  eb_total (get_element_balance (count_elements
     (map element_value [WOOD; WOOD; WOOD; FIRE; FIRE; EARTH; METAL; WATER]))) = 8.
Proof.
  split; [reflexivity |].
  exact (proj1 (element_balance_of_eight [WOOD; WOOD; WOOD; FIRE; FIRE; EARTH; METAL; WATER]
                  eq_refl)).
Defined.


Lemma TenGod_eqb_eq (a b : TenGod) : TenGod_eqb a b = true -> a = b.
Proof. destruct a, b; cbn; congruence. Qed.

Lemma TenGod_eqb_refl (a : TenGod) : TenGod_eqb a a = true.
Proof. destruct a; reflexivity. Qed.

Lemma TenGod_eqb_sym (a b : TenGod) : TenGod_eqb a b = TenGod_eqb b a.
Proof. destruct a, b; reflexivity. Qed.

Lemma tg_lookup_bump (k k' : TenGod) (counts : list (TenGod * Z)) :
  tg_lookup k (tg_bump k' counts) = tg_lookup k counts + (if TenGod_eqb k k' then 1 else 0).
Proof.
  induction counts as [| [k0 v] r IH]; cbn [tg_bump tg_lookup].
  - destruct (TenGod_eqb k k'); reflexivity.
  - destruct (TenGod_eqb k' k0) eqn:E1.
    + apply TenGod_eqb_eq in E1; subst k0; cbn [tg_lookup].
      destruct (TenGod_eqb k k'); lia.
    + cbn [tg_lookup]; destruct (TenGod_eqb k k0) eqn:E2; [| exact IH].
      apply TenGod_eqb_eq in E2; subst k0.
      rewrite TenGod_eqb_sym, E1; lia.
Qed.

Lemma tg_lookup_count_pillar (k : TenGod) (p : TgPillar) (counts : list (TenGod * Z)) :
  tg_lookup k (tg_count_pillar false p counts)
  = tg_lookup k counts + tg_occ k [tg_stem p; tg_branch p].
Proof.
  unfold tg_count_pillar, tg_occ, zsum.
  destruct (tg_stem p) as [s |], (tg_branch p) as [b |]; cbn [map fold_right];
    rewrite ?tg_lookup_bump; lia.
Qed.

Lemma tg_count_pillar_day (p : TgPillar) (counts : list (TenGod * Z)) :
  tg_stem p <> None -> tg_count_pillar true p counts = counts.
Proof.
  unfold tg_count_pillar; destruct (tg_stem p); [reflexivity | congruence].
Qed.

Lemma tg_lookup_not_in (k : TenGod) (counts : list (TenGod * Z)) :
  ~ In k (map fst counts) -> tg_lookup k counts = 0.
Proof.
  induction counts as [| [k0 v] r IH]; cbn; [reflexivity |].
  intro N; destruct (TenGod_eqb k k0) eqn:E.
  - apply TenGod_eqb_eq in E; subst; tauto.
  - apply IH; tauto.
Qed.

Lemma py_max_by_fold {A} (f : A -> Z) (r : list A) (x : A) :
  f x <= f (fold_left (fun best y => if f best <? f y then y else best) r x) /\
  (forall y, In y r -> f y <= f (fold_left (fun best y => if f best <? f y then y else best) r x)).
Proof.
  revert x; induction r as [| a r IH]; intro x; cbn [fold_left].
  - split; [lia | intros y []].
  - destruct (f x <? f a) eqn:E.
    + destruct (IH a) as [IH1 IH2]; apply Z.ltb_lt in E.
      split; [lia |]; intros y [<- | Hy]; [lia | auto].
    + destruct (IH x) as [IH1 IH2]; apply Z.ltb_ge in E.
      split; [lia |]; intros y [<- | Hy]; [lia | auto].
Qed.

Lemma tg_occ_bounds (k : TenGod) (l : list (option TenGod)) :
  0 <= tg_occ k l <= Z.of_nat (List.length l).
Proof.
  unfold tg_occ, zsum; induction l as [| o l IH]; cbn [map fold_right List.length]; [lia |].
  rewrite Nat2Z.inj_succ; destruct o as [k' |]; [destruct (TenGod_eqb k k') |]; lia.
Qed.

Lemma tg_counts_lookup (fp : TgFourPillars) (k : TenGod) :
  tg_stem (tg_day fp) <> None ->
  tg_lookup k (tg_counts fp) = tg_occ k (tg_six_positions fp).
Proof.
  intro Hd; unfold tg_counts; rewrite tg_lookup_count_pillar, tg_count_pillar_day by exact Hd.
  rewrite !tg_lookup_count_pillar; unfold tg_six_positions, tg_occ, zsum.
  cbn [map fold_right tg_lookup]; lia.
Qed.

Lemma TenGod_eq_dec (a b : TenGod) : {a = b} + {a <> b}.
Proof. decide equality. Defined.

(** X12: when the day stem carries a ten-god annotation (as after
    [annotate_four_pillars_with_ten_gods]), [get_strongest_ten_god] counts
    only the six stems and branches of the year, month and hour pillars:
    its count is the number of occurrences of its key there, no ten god
    occurs more often there, the count is within 0..6, and the day branch's
    annotation never changes the result. *)
Theorem strongest_ten_god_counts (fp : TgFourPillars) (Hday : tg_stem (tg_day fp) <> None) :
  let r := get_strongest_ten_god fp in
  stg_count r = tg_occ (stg_key r) (tg_six_positions fp) /\
  (forall k, tg_occ k (tg_six_positions fp) <= stg_count r) /\
  0 <= stg_count r <= 6 /\
  (forall b, get_strongest_ten_god
               {| tg_year := tg_year fp; tg_month := tg_month fp;
                  tg_day := {| tg_stem := tg_stem (tg_day fp); tg_branch := b |};
                  tg_hour := tg_hour fp |} = r).
Proof.
  intro r.
  assert (L : forall k, tg_lookup k (tg_counts fp) = tg_occ k (tg_six_positions fp))
    by (intro k; apply tg_counts_lookup, Hday).
  assert (M : stg_count r = tg_occ (stg_key r) (tg_six_positions fp) /\
              (forall k, tg_occ k (tg_six_positions fp) <= stg_count r)).
  { unfold r, get_strongest_ten_god.
    destruct (map fst (tg_counts fp)) as [| x ks] eqn:K; cbn [py_max_by stg_count stg_key].
    - assert (Z0 : forall k, tg_lookup k (tg_counts fp) = 0)
        by (intro k; apply tg_lookup_not_in; rewrite K; intros []).
      split; [rewrite <- L, Z0; reflexivity |].
      intro k; rewrite <- L, Z0; lia.
    - split; [apply L |].
      intro k; rewrite <- L.
      destruct (py_max_by_fold (fun k => tg_lookup k (tg_counts fp)) ks x) as [F1 F2].
      destruct (in_dec TenGod_eq_dec k (x :: ks)) as [I | NI].
      + destruct I as [<- | I]; [exact F1 | exact (F2 k I)].
      + rewrite <- K in NI; rewrite (tg_lookup_not_in k _ NI), L; apply tg_occ_bounds. }
  destruct M as [M1 M2]; split; [exact M1 |]; split; [exact M2 |]; split.
  - rewrite M1; apply tg_occ_bounds.
  - intro b; unfold r, get_strongest_ten_god, tg_counts; cbn [tg_year tg_month tg_day tg_hour].
    rewrite !tg_count_pillar_day by exact Hday; reflexivity.
Qed.

Lemma strongest_ten_god_counts_witness :
  exists fp, tg_stem (tg_day fp) <> None /\
    stg_count (get_strongest_ten_god fp)
    = tg_occ (stg_key (get_strongest_ten_god fp)) (tg_six_positions fp).
Proof.
  exists (annotate_four_pillars_with_ten_gods
            {| p_stem := GENG; p_branch := WU_BRANCH |} {| p_stem := JI; p_branch := MAO |}
            {| p_stem := BING; p_branch := YIN |} {| p_stem := GENG; p_branch := YIN |}
            FIRE Yang).
  assert (H : tg_stem (tg_day (annotate_four_pillars_with_ten_gods
            {| p_stem := GENG; p_branch := WU_BRANCH |} {| p_stem := JI; p_branch := MAO |}
            {| p_stem := BING; p_branch := YIN |} {| p_stem := GENG; p_branch := YIN |}
            FIRE Yang)) <> None) by (vm_compute; discriminate).
  split; [exact H | exact (proj1 (strongest_ten_god_counts _ H))].
Defined.

Lemma strength_step_bounds (dm : Element) (s : Q) (pos : option Element) :
  (s - 1 <= strength_step dm s pos <= s + 1)%Q.
Proof.
  unfold strength_step; destruct pos as [e |]; [| lra].
  repeat match goal with |- context [if ?c then _ else _] => destruct c end; lra.
Qed.

Lemma strength_fold_bounds (dm : Element) (l : list (option Element)) (s : Q) :
  (s - inject_Z (Z.of_nat (List.length l)) <= fold_left (strength_step dm) l s
   <= s + inject_Z (Z.of_nat (List.length l)))%Q.
Proof.
  revert s; induction l as [| p l IH]; intro s; cbn [fold_left List.length].
  - change (inject_Z (Z.of_nat 0)) with 0%Q; lra.
  - destruct (strength_step_bounds dm s p) as [A B]; destruct (IH (strength_step dm s p)) as [C D].
    rewrite Nat2Z.inj_succ, <- Z.add_1_r, inject_Z_plus; change (inject_Z 1) with 1%Q.
    split; lra.
Qed.

(** X13: the strength score computed by [determine_use_god] lies between
    -9 and 9; its use god, secondary use god, avoid god and secondary avoid
    god are four distinct elements, and none of them is the element the day
    master controls ([CONTROLLED_BY], computed by the function but never
    used). *)
Theorem use_god_distinct_and_bounded (dm : Element) (element_counts : Element -> Z)
    (seasonal_strength : string) (fp : FourPillarElems) :
  let r := determine_use_god dm element_counts seasonal_strength fp in
  (-9 <= dm_strength_score r <= 9)%Q /\
  NoDup [use_god r; use_god_secondary r; avoid_god r; avoid_god_secondary r; CONTROLLED_BY dm].
Proof.
  intro r; split.
  - assert (S : (-9 <= _calculate_dm_strength_score dm element_counts seasonal_strength fp <= 9)%Q).
    { unfold _calculate_dm_strength_score.
      destruct (strength_fold_bounds dm (strength_positions fp)
                  (if String.eqb seasonal_strength "strong" then 2
                   else if String.eqb seasonal_strength "weak" then -2 else 0)%Q) as [A B].
      cbn [strength_positions List.length] in A, B; change (inject_Z (Z.of_nat 7)) with 7%Q in A, B.
      destruct (String.eqb seasonal_strength "strong"), (String.eqb seasonal_strength "weak");
        split; lra. }
    unfold r, determine_use_god; destruct (Qle_bool _ _); [| destruct (Qle_bool _ _)]; exact S.
  - unfold r, determine_use_god.
    destruct (Qle_bool _ _); [| destruct (Qle_bool _ _)]; cbn [use_god use_god_secondary avoid_god avoid_god_secondary];
      destruct dm; cbn; repeat constructor; cbn; intuition discriminate.
Qed.

(** X14: [_score_dm_interaction] never labels two known day-master
    elements as neutral; the label is "same" exactly for equal elements,
    "generates" when one generates the other, "controls"/"controlled" along
    the destruction cycle; a missing element scores 15 (neutral) and two
    missing elements score 22 (same). *)
Theorem dm_interaction_cases (a b : Element) :
  snd (_score_dm_interaction (Some a) (Some b)) <> dm_neutral /\
  (snd (_score_dm_interaction (Some a) (Some b)) = dm_same <-> a = b) /\
  (snd (_score_dm_interaction (Some a) (Some b)) = dm_generates <->
     a <> b /\ (GENERATION_CYCLE a = b \/ GENERATION_CYCLE b = a)) /\
  (snd (_score_dm_interaction (Some a) (Some b)) = dm_controls <->
     a <> b /\ DESTRUCTION_CYCLE a = b) /\
  (snd (_score_dm_interaction (Some a) (Some b)) = dm_controlled <->
     a <> b /\ DESTRUCTION_CYCLE b = a) /\
  _score_dm_interaction (Some a) None = (15%Q, dm_neutral) /\
  _score_dm_interaction None (Some a) = (15%Q, dm_neutral) /\
  _score_dm_interaction None None = (22%Q, dm_same).
Proof.
  destruct a, b; vm_compute; intuition congruence.
Qed.

Lemma BRANCH_INDEX_range (b : EarthlyBranch) : 0 <= BRANCH_INDEX b <= 11.
Proof. destruct b; cbn; lia. Qed.

Lemma annual_clash_comb (b1 b2 : EarthlyBranch) :
  (_is_clash (BRANCH_INDEX b1) (BRANCH_INDEX b2) = true ->
     (BRANCH_INDEX b1 - BRANCH_INDEX b2) mod 12 = 6) /\
  (_is_combination (BRANCH_INDEX b1) (BRANCH_INDEX b2) = true ->
     (BRANCH_INDEX b1 + BRANCH_INDEX b2) mod 12 = 1) /\
  _is_clash (BRANCH_INDEX b1) (BRANCH_INDEX b2) && _is_combination (BRANCH_INDEX b1) (BRANCH_INDEX b2) = false.
Proof. destruct b1, b2; vm_compute; intuition congruence. Qed.

Lemma year_branch_index (year : Z) :
  exists b, snd (get_year_stem_branch year) = Some b /\ BRANCH_INDEX b = (year - 1900) mod 12.
Proof.
  unfold get_year_stem_branch; cbn [snd].
  destruct (get_branch_by_index_total ((year - GREGORIAN_EPOCH) mod 60 mod 12)) as [b [E I]].
  exists b; split; [exact E |].
  rewrite I, Z.mod_mod, Z.mod_mod_divide by (lia || (exists 5; reflexivity)); reflexivity.
Qed.

(** X15: [calculate_annual_luck] always succeeds; its branch has index
    (year - 1900) mod 12; it reports at most one interaction per pillar, each
    a clash (branch indices differ by 6 mod 12) or a combination (indices sum
    to 1 mod 12) with that pillar; and the year twelve years later gives the
    same interactions. *)
Theorem annual_luck_interactions (pillars : list (string * Pillar)) (year : Z) :
  exists al, calculate_annual_luck pillars year = Some al /\
    BRANCH_INDEX (al_branch al) = (year - 1900) mod 12 /\
    (List.length (al_interactions al) <= List.length pillars)%nat /\
    (forall t n, In (t, n) (al_interactions al) ->
       exists p, In (n, p) pillars /\
         match t with
         | Clash => (BRANCH_INDEX (al_branch al) - BRANCH_INDEX (p_branch p)) mod 12 = 6
         | Combination => (BRANCH_INDEX (al_branch al) + BRANCH_INDEX (p_branch p)) mod 12 = 1
         end) /\
    (forall al', calculate_annual_luck pillars (year + 12) = Some al' ->
       al_interactions al' = al_interactions al).
Proof.
  destruct (year_branch_index year) as [b [Eb Ib]].
  destruct (year_branch_index (year + 12)) as [b' [Eb' Ib']].
  assert (Bb : b' = b).
  { assert (BRANCH_INDEX b' = BRANCH_INDEX b) as E.
    { rewrite Ib', Ib.
      replace (year + 12 - 1900) with ((year - 1900) + 1 * 12) by lia.
      apply Z_mod_plus_full. }
    destruct b, b'; cbn in E; congruence. }
  subst b'.
  destruct (get_year_stem_branch year) as [os ob] eqn:Ey; cbn [snd] in Eb; subst ob.
  destruct (get_stem_by_index_total ((year - GREGORIAN_EPOCH) mod 60 mod 10)) as [s [Es _]].
  assert (Os : os = Some s) by (unfold get_year_stem_branch in Ey; injection Ey; congruence).
  subst os.
  unfold calculate_annual_luck at 1; rewrite Ey; cbn [pillar_of obind].
  eexists; split; [reflexivity |]; cbn [al_branch al_interactions].
  split; [exact Ib |]; split; [| split].
  - induction pillars as [| [n p] ps IH]; cbn [flat_map List.length]; [lia |].
    rewrite length_app.
    destruct (annual_clash_comb b (p_branch p)) as [_ [_ X]].
    destruct (_is_clash _ _), (_is_combination _ _); cbn [andb] in X; cbn [app List.length]; try discriminate; lia.
  - intros t n H; apply in_flat_map in H as [[n' p] [Hin H]].
    exists p; cbn [fst snd] in H.
    destruct (annual_clash_comb b (p_branch p)) as [C [M _]].
    destruct (_is_clash _ _), (_is_combination _ _); cbn in H;
      intuition (try congruence);
      match goal with Hq : (_, _) = (t, n) |- _ => injection Hq as <- <-; eauto end.
  - intros al' H'.
    unfold calculate_annual_luck in H'.
    destruct (get_year_stem_branch (year + 12)) as [os' ob'] eqn:Ey'; cbn [snd] in Eb'; subst ob'.
    destruct os'; cbn in H'; [| discriminate].
    injection H' as <-; reflexivity.
Qed.

Lemma taohua_not_self (b : EarthlyBranch) : EarthlyBranch_eqb b (TAOHUA_MAP b) = false.
Proof. destruct b; reflexivity. Qed.

Lemma EarthlyBranch_eqb_eq (a b : EarthlyBranch) : EarthlyBranch_eqb a b = true <-> a = b.
Proof. destruct a, b; cbn; split; congruence. Qed.

(** The peach blossom search of [get_deities_for_chart] never returns the
    triggering pillar itself. *)
Lemma peach_find_not_self (yp mp dp hp : Pillar) (pn : PillarName) (p : Pillar) (br : EarthlyBranch) :
  List.find (fun pn_p => EarthlyBranch_eqb (p_branch (snd pn_p)) (TAOHUA_MAP br))
    [(pn_year, yp); (pn_month, mp); (pn_day, dp); (pn_hour, hp)] = Some (pn, p) ->
  p_branch p <> br.
Proof.
  intros F E; apply find_some in F as [_ F]; cbn [snd] in F.
  rewrite E, taohua_not_self in F; discriminate.
Qed.

Lemma peach_find_pillar (yp mp dp hp : Pillar) (pn : PillarName) (p : Pillar) f :
  List.find f [(pn_year, yp); (pn_month, mp); (pn_day, dp); (pn_hour, hp)] = Some (pn, p) ->
  (pn = pn_year -> p = yp) /\ (pn = pn_day -> p = dp).
Proof.
  intros F; apply find_some in F as [I _]; cbn in I.
  intuition congruence.
Qed.

Ltac deity_cases yp mp dp hp :=
  destruct (existsb (EarthlyBranch_eqb (p_branch dp)) (TIANYI_GUIREN (p_stem dp))) eqn:N1;
  destruct (existsb (EarthlyBranch_eqb (p_branch hp)) (TIANYI_GUIREN (p_stem dp))) eqn:N2;
  destruct (List.find (fun pn_p : PillarName * Pillar => EarthlyBranch_eqb (p_branch (snd pn_p))
                                     (TAOHUA_MAP (p_branch yp)))
             [(pn_year, yp); (pn_month, mp); (pn_day, dp); (pn_hour, hp)]) as [[pn1 p1] |] eqn:F1;
  try destruct (List.find (fun pn_p : PillarName * Pillar => EarthlyBranch_eqb (p_branch (snd pn_p))
                                     (TAOHUA_MAP (p_branch dp)))
             [(pn_year, yp); (pn_month, mp); (pn_day, dp); (pn_hour, hp)]) as [[pn2 p2] |] eqn:F2;
  cbn [app List.length].

Ltac deity_hyps :=
  repeat match goal with
  | H : In _ (_ :: _) |- _ => destruct H as [H | H]
  | H : In _ [] |- _ => destruct H
  | H : D_tianyi_guiren _ = D_tianyi_guiren _ |- _ => injection H as H; subst
  | H : D_taohua _ _ = D_taohua _ _ |- _ => injection H as H ?; subst
  | H : D_tianyi_guiren _ = D_taohua _ _ |- _ => discriminate H
  | H : D_taohua _ _ = D_tianyi_guiren _ |- _ => discriminate H
  | H : _ :: _ = _ :: _ |- _ => injection H as ? H; subst
  | H : [] = _ :: _ |- _ => discriminate H
  | H : _ :: _ = [] |- _ => discriminate H
  end.

Ltac no_self F :=
  let E := fresh in
  intro E; subst;
  destruct (peach_find_pillar _ _ _ _ _ _ _ F) as [A B];
  pose proof (peach_find_not_self _ _ _ _ _ _ _ F);
  first [rewrite (A eq_refl) in * | rewrite (B eq_refl) in *]; congruence.

(** X16: [get_deities_for_chart] returns at most two deities: a Tianyi
    Guiren whose pillar list is non-empty, without repetition and made of
    the day and hour pillars only, and at most one peach blossom, triggered
    by the year or day pillar and found on a different pillar; when there
    are two, the Tianyi Guiren comes first. *)
Theorem deities_for_chart_shape (yp mp dp hp : Pillar) :
  let ds := get_deities_for_chart yp mp dp hp in
  (List.length ds <= 2)%nat /\
  (forall f, In (D_tianyi_guiren f) ds ->
     f <> [] /\ NoDup f /\ forall pn, In pn f -> pn = pn_day \/ pn = pn_hour) /\
  (forall t p, In (D_taohua t p) ds -> (t = pn_year \/ t = pn_day) /\ t <> p) /\
  (forall d1 d2, ds = [d1; d2] ->
     (exists f, d1 = D_tianyi_guiren f) /\ (exists t p, d2 = D_taohua t p)).
Proof.
  intro ds; unfold ds, get_deities_for_chart; clear ds.
  split; [| split; [| split]].
  - deity_cases yp mp dp hp; lia.
  - intro f; deity_cases yp mp dp hp; intro H; deity_hyps;
      (split; [discriminate | split;
        [repeat constructor; cbn; intuition discriminate
        | intros pn Hpn; deity_hyps; auto]]).
  - intros t p; deity_cases yp mp dp hp; intro H; deity_hyps;
      (split; [auto | first [no_self F1 | no_self F2]]).
  - intros d1 d2; deity_cases yp mp dp hp; intro H; deity_hyps; eauto.
Qed.

Lemma day_pillar_polarity (year month day : Z) (s : HeavenlyStem) (b : EarthlyBranch) :
  get_day_stem_branch year month day = Some (Some s, Some b) ->
  stem_yin_yang s = branch_yin_yang b.
Proof.
  intros H; unfold get_day_stem_branch in H.
  destruct (month_days_loop year 1 (Z.to_nat (month - 1))); [| discriminate].
  injection H as Hs Hb.
  rewrite (stem_parity _ _ Hs), (branch_parity _ _ Hb),
    !even_mod_even by (reflexivity || lia); reflexivity.
Qed.

Lemma tianyi_same_polarity (s : HeavenlyStem) (b : EarthlyBranch) :
  stem_yin_yang s = branch_yin_yang b ->
  existsb (EarthlyBranch_eqb b) (TIANYI_GUIREN s) = true -> s = DING \/ s = GUI.
Proof. destruct s, b; cbn; intuition discriminate. Qed.

(** X17: for a day pillar computed by [get_day_stem_branch], the Tianyi
    Guiren of [get_deities_for_chart] can list the day pillar itself only when
    the day stem is Ding or Gui. *)
Theorem tianyi_day_position (year month day : Z) (s : HeavenlyStem) (b : EarthlyBranch)
    (yp mp hp : Pillar) (H : get_day_stem_branch year month day = Some (Some s, Some b)) :
  forall f, In (D_tianyi_guiren f) (get_deities_for_chart yp mp {| p_stem := s; p_branch := b |} hp) ->
  In pn_day f -> s = DING \/ s = GUI.
Proof.
  apply day_pillar_polarity in H.
  intros f Hf Hd; apply (tianyi_same_polarity s b H).
  set (dp := {| p_stem := s; p_branch := b |}) in Hf.
  change s with (p_stem dp); change b with (p_branch dp).
  revert Hf; unfold get_deities_for_chart; deity_cases yp mp dp hp; intro Hf; deity_hyps;
    try reflexivity; cbn in Hd; intuition discriminate.
Qed.

Lemma tianyi_day_position_witness :
  get_day_stem_branch 2000 2 19 = Some (Some DING, Some YOU) /\
  In (D_tianyi_guiren [pn_day])
     (get_deities_for_chart {| p_stem := GENG; p_branch := CHEN |} {| p_stem := WU; p_branch := YIN |}
        {| p_stem := DING; p_branch := YOU |} {| p_stem := GENG; p_branch := ZI |}) /\
  (forall f, In (D_tianyi_guiren f)
              (get_deities_for_chart {| p_stem := GENG; p_branch := CHEN |} {| p_stem := WU; p_branch := YIN |}
                 {| p_stem := DING; p_branch := YOU |} {| p_stem := GENG; p_branch := ZI |}) ->
            In pn_day f -> DING = DING \/ DING = GUI).
Proof.
  assert (H : get_day_stem_branch 2000 2 19 = Some (Some DING, Some YOU)) by (vm_compute; reflexivity).
  split; [exact H | split; [vm_compute; left; reflexivity |]].
  exact (tianyi_day_position 2000 2 19 DING YOU _ _ _ H).
Defined.

Lemma rhythm_entry_props (dm ug h : Element) :
  25 <= rhythm_score dm ug h <= 90 /\
  (rhythm_level (rhythm_score dm ug h) = level_low <-> h = CONTROLLER_OF dm /\ h <> ug).
Proof. destruct dm, ug, h; vm_compute; intuition congruence. Qed.

Lemma energy_rhythm_entries (dm ug : Element) (ds : HeavenlyStem) (r : list RhythmEntry) :
  get_energy_rhythm dm ug ds = Some r ->
  forall e, In e r -> re_score e = rhythm_score dm ug (re_element e) /\
                      re_level e = rhythm_level (re_score e).
Proof.
  unfold get_energy_rhythm; generalize _CHINESE_HOURS as hours; intro hours.
  revert r; induction hours as [| h hs IH]; intros r H e He; cbn [fold_right] in H.
  - injection H as <-; destruct He.
  - destruct (fold_right _ _ hs) as [rest |] eqn:R; cbn [obind] in H; [| discriminate].
    destruct (fst (get_hour_stem_branch ds (fst h))) as [hs0 |]; cbn [obind] in H; [| discriminate].
    injection H as <-; destruct He as [<- | He]; [split; reflexivity |].
    exact (IH rest eq_refl e He).
Qed.

(** X18: [get_energy_rhythm] always returns twelve entries, one per
    shichen from Zi to Hai in order; the two shichen of each pair share
    element, score and level; every score lies between 25 and 90 and the
    level is low exactly for the element controlling the day master when it
    is not the use god; and each table label is the branch the hour maps to. *)
Theorem energy_rhythm_shape (dm ug : Element) (ds : HeavenlyStem) :
  exists r, get_energy_rhythm dm ug ds = Some r /\
    map re_branch r = [ZI; CHOU; YIN; MAO; CHEN; SI; WU_BRANCH; WEI; SHEN; YOU; XU; HAI] /\
    (forall i, (i < 6)%nat ->
       nth_error (map (fun e => (re_element e, re_score e, re_level e)) r) (2 * i)
       = nth_error (map (fun e => (re_element e, re_score e, re_level e)) r) (2 * i + 1)) /\
    (forall e, In e r ->
       25 <= re_score e <= 90 /\
       (re_level e = level_low <-> re_element e = CONTROLLER_OF dm /\ re_element e <> ug)) /\
    (forall hr br, In (hr, br) _CHINESE_HOURS -> snd (get_hour_stem_branch ds hr) = Some br).
Proof.
  destruct (get_energy_rhythm dm ug ds) as [r |] eqn:E.
  - exists r; split; [reflexivity |].
    split; [| split; [| split]].
    + destruct dm, ug, ds; vm_compute in E; injection E as <-; reflexivity.
    + destruct dm, ug, ds; vm_compute in E; injection E as <-;
        intros i Hi; do 6 (destruct i as [| i]; [reflexivity |]); lia.
    + intros e He; destruct (energy_rhythm_entries dm ug ds r E e He) as [S L].
      rewrite L, S; apply rhythm_entry_props.
    + intros hr br Hin; destruct ds; cbn in Hin;
        repeat (destruct Hin as [Hin | Hin]; [injection Hin as <- <-; vm_compute; reflexivity |]);
        destruct Hin.
  - exfalso; destruct dm, ug, ds; vm_compute in E; discriminate.
Qed.

Lemma check_lucky_hour_ok : check_lucky_hour = true.
Proof. vm_compute; reflexivity. Qed.

Lemma in_all_elements (e : Element) : In e all_elements.
Proof. destruct e; cbn; tauto. Qed.

Lemma in_all_stems (s : HeavenlyStem) : In s all_stems.
Proof. destruct s; cbn; tauto. Qed.

Lemma YinYang_eqb_eq (a b : YinYang) : YinYang_eqb a b = true -> a = b.
Proof. destruct a, b; cbn; congruence. Qed.

(** X19: the lucky hour of [get_lucky_items] always exists, falls on a
    yang branch, has the highest lucky score of the twelve shichen, and that
    score is the one computed at an hour labelled with its branch. *)
Theorem lucky_hour_yang_and_maximal (ug dm : Element) (ds : HeavenlyStem) :
  exists lh, get_lucky_hour ug dm ds = Some (Some lh) /\
    branch_yin_yang (lh_branch lh) = Yang /\
    (forall hr br hs, In (hr, br) _CHINESE_HOURS -> fst (get_hour_stem_branch ds hr) = Some hs ->
       lucky_hour_score ug dm (stem_element hs) <= lh_score lh) /\
    (exists hr hs, In (hr, lh_branch lh) _CHINESE_HOURS /\
       fst (get_hour_stem_branch ds hr) = Some hs /\
       lh_score lh = lucky_hour_score ug dm (stem_element hs)).
Proof.
  pose proof check_lucky_hour_ok as C; unfold check_lucky_hour in C.
  rewrite forallb_forall in C; specialize (C ug (in_all_elements ug)).
  rewrite forallb_forall in C; specialize (C dm (in_all_elements dm)).
  rewrite forallb_forall in C; specialize (C ds (in_all_stems ds)).
  unfold lucky_hour_ok_b in C.
  destruct (get_lucky_hour ug dm ds) as [[lh |] |]; try discriminate.
  apply andb_prop in C as [C X]; apply andb_prop in C as [Y F].
  exists lh; split; [reflexivity |]; split; [apply YinYang_eqb_eq, Y |]; split.
  - intros hr br hs Hin Hs; rewrite forallb_forall in F; specialize (F _ Hin).
    cbn [fst] in F; rewrite Hs in F; apply Z.leb_le, F.
  - apply existsb_exists in X as [[hr br] [Hin X]]; apply andb_prop in X as [B X].
    apply EarthlyBranch_eqb_eq in B; cbn [fst snd] in B, X; subst br.
    destruct (fst (get_hour_stem_branch ds hr)) as [hs |] eqn:Hs; [| discriminate].
    exists hr, hs; split; [exact Hin | split; [exact Hs | apply Z.eqb_eq, X]].
Qed.
